(** * binance_trade_bot.auto_trader: the scouting engine, verified

    A shallow embedding of [AutoTrader] (src/binance_trade_bot/auto_trader.py).

    Conventions of the embedding.
    - A Python [float] is an exact rational ([Q]); [a / b] raises
      [ZeroDivisionError] when [b] is zero and [x - None] raises [TypeError],
      as in Python.  Binary64 rounding is not modelled.
    - [self.manager], [self.config] and [self.db] are collaborators whose code
      is outside this file: the manager is an interface ([BinanceAPIManager])
      over an abstract exchange state, the configuration is a record, and the
      database is the part of [State] that holds the held coin and the [Pair]
      table.
    - Every method is a computation in the monad [M]: it takes the state and
      returns normally, raises, or runs out of fuel (only the buy retry loop
      consumes fuel).  The state carries a trace of the collaborator calls
      and log lines, newest first.
    - Console output ([print]) is not modelled apart from the best-coin line
      of [scout]. *)

From Stdlib Require Import QArith Lia.
From stdpp Require Import base option list strings gmap.

Set Default Proof Using "Type".
Local Open Scope Q_scope.

(** ** Numbers *)

(** Python's [a < b] on floats. *)
Definition Qltb (a b : Q) : bool := negb (Qle_bool b a).

(** Python's two-argument [max(a, b)]: the first argument unless the second
    is strictly larger. *)
Definition py_max2 (a b : Q) : Q := if Qltb a b then b else a.

(** ** Data model (models.py, as used by auto_trader.py) *)

Record Coin := mkCoin {
  symbol : string;
  enabled : bool
}.

Record Pair := mkPair {
  from_coin : Coin;
  to_coin : Coin;
  ratio : option Q
}.

Definition to_coin_id (p : Pair) : string := symbol (to_coin p).

Definition set_ratio (p : Pair) (r : Q) : Pair :=
  mkPair (from_coin p) (to_coin p) (Some r).

(** [Coin.__add__]: a coin plus a string is the symbol followed by it. *)
Definition coin_add (c : Coin) (s : string) : string := symbol c +:+ s.

(** The order dictionary returned by [sell_alt] and [buy_alt]; only
    [result["price"]] is read. *)
Record OrderResult := mkOrder {
  price : Q
}.

Record Config := mkConfig {
  BRIDGE : string;
  SCOUT_MULTIPLIER : Q;
  CURRENT_COIN_SYMBOL : string;
  SUPPORTED_COIN_LIST : list string
}.

(** The exchange manager.  Price and fee lookups observe the exchange state;
    orders advance it, so that a repeated order may answer differently. *)
Class BinanceAPIManager (W : Type) := {
  get_ticker_price : string -> W -> option Q;
  get_fee : string -> string -> bool -> W -> Q;
  sell_alt : string -> string -> W -> option OrderResult * W;
  buy_alt : string -> string -> W -> option OrderResult * W
}.

(** What a run leaves in the trace: a line of [logger.info], an order sent
    to the manager, a write of the held coin, the entry into
    [transaction_through_bridge] with its pair, and the best-coin line that
    [scout] prints last. *)
Inductive Event :=
  | EvInfo (msg : string)
  | EvSell (origin target : string)
  | EvBuy (origin target : string)
  | EvSetCurrent (coin : string)
  | EvTransaction (p : Pair)
  | EvBest (coin : string) (best : option Q).

(** The Python exceptions the methods can raise; [sys.exit] raises
    [SystemExit]. *)
Inductive exn :=
  | TypeError
  | ZeroDivisionError
  | IndexError
  | SystemExit (msg : string).

Record State (W : Type) := mkState {
  exchange : W;
  current_coin : option string;
  pair_table : list Pair;
  best_ratios : gmap (string * string) Q;
  trace : list Event
}.
Arguments mkState {W}.
Arguments exchange {W}.
Arguments current_coin {W}.
Arguments pair_table {W}.
Arguments best_ratios {W}.
Arguments trace {W}.

(** ** The monad of methods *)

Inductive outcome (W A : Type) :=
  | Returned (a : A) (s : State W)
  | Raised (e : exn) (s : State W)
  | OutOfFuel (s : State W).
Arguments Returned {W A}.
Arguments Raised {W A}.
Arguments OutOfFuel {W A}.

Definition M (W A : Type) : Type := State W -> outcome W A.

Definition ret {W A} (a : A) : M W A := fun s => Returned a s.

Definition bind {W A B} (m : M W A) (k : A -> M W B) : M W B :=
  fun s =>
    match m s with
    | Returned a s' => k a s'
    | Raised e s' => Raised e s'
    | OutOfFuel s' => OutOfFuel s'
    end.

Definition raise {W A} (e : exn) : M W A := fun s => Raised e s.

Definition out_of_fuel {W A} : M W A := fun s => OutOfFuel s.

Declare Scope trader_scope.
Delimit Scope trader_scope with trader.
Notation "x <- m ;; k" := (bind m (fun x => k))
  (at level 100, m at next level, right associativity) : trader_scope.
Notation "m ;; k" := (bind m (fun _ => k))
  (at level 100, right associativity) : trader_scope.
Local Open Scope trader_scope.

(** The state an outcome ends in. *)
Definition final_state {W A} (o : outcome W A) : State W :=
  match o with
  | Returned _ s => s
  | Raised _ s => s
  | OutOfFuel s => s
  end.

Definition emit {W} (e : Event) : M W unit :=
  fun s => Returned tt
    (mkState (exchange s) (current_coin s) (pair_table s) (best_ratios s)
             (e :: trace s)).

(** [self.logger.info(msg)] *)
Definition logger_info {W} (msg : string) : M W unit := emit (EvInfo msg).

(** Python's float division. *)
Definition py_div {W} (a b : Q) : M W Q :=
  if Qeq_bool b 0 then raise ZeroDivisionError else ret (a / b).

(** [coin + self.config.BRIDGE] where [coin] comes from
    [get_current_coin()] and may be [None]. *)
Definition held_add {W} (cur : option string) (s : string) : M W string :=
  match cur with
  | Some c => ret (c +:+ s)
  | None => raise TypeError
  end.

(** ** The database, as far as auto_trader.py uses it *)

(** Modelled from the spec: [Database.get_current_coin] is not under src/;
    Session State is the held asset, or none before bootstrap. *)
Definition get_current_coin {W} : M W (option string) :=
  fun s => Returned (current_coin s) s.

(** Modelled from the spec: [Database.set_current_coin] is not under src/;
    it records the asset as the one currently held. *)
Definition set_current_coin {W} (c : string) : M W unit :=
  fun s => Returned tt
    (mkState (exchange s) (Some c) (pair_table s) (best_ratios s)
             (EvSetCurrent c :: trace s)).

(** Modelled from the spec: [Database.get_pairs_from] is not under src/;
    it yields the stored pairs whose source is the given asset. *)
Definition get_pairs_from {W} (cur : string) : M W (list Pair) :=
  fun s => Returned
    (filter (fun p => String.eqb (symbol (from_coin p)) cur) (pair_table s)) s.

(** [session.query(Pair)] inside [db_session()], and the commit on leaving
    the [with] block. *)
Definition query_pairs {W} : M W (list Pair) :=
  fun s => Returned (pair_table s) s.

Definition commit_pairs {W} (ps : list Pair) : M W unit :=
  fun s => Returned tt
    (mkState (exchange s) (current_coin s) ps (best_ratios s) (trace s)).

(** [Pair.to_coin == current_coin] *)
Definition to_coin_is (cur : option string) (p : Pair) : bool :=
  match cur with
  | Some c => String.eqb (symbol (to_coin p)) c
  | None => false
  end.

Section AutoTrader.

Context {W : Type} {manager : BinanceAPIManager W} (config : Config).

Definition ticker (sym : string) : M W (option Q) :=
  fun s => Returned (get_ticker_price sym (exchange s)) s.

Definition fee (origin target : string) (selling : bool) : M W Q :=
  fun s => Returned (get_fee origin target selling (exchange s)) s.

Definition call_sell_alt (origin target : string) : M W (option OrderResult) :=
  fun s =>
    let '(r, w) := sell_alt origin target (exchange s) in
    Returned r (mkState w (current_coin s) (pair_table s) (best_ratios s)
                        (EvSell origin target :: trace s)).

Definition call_buy_alt (origin target : string) : M W (option OrderResult) :=
  fun s =>
    let '(r, w) := buy_alt origin target (exchange s) in
    Returned r (mkState w (current_coin s) (pair_table s) (best_ratios s)
                        (EvBuy origin target :: trace s)).

(** ** update_trade_threshold (lines 39-60) *)

(** The [for] loop of lines 51-60 over the rows of the session; rows that
    the filter rejects are passed through. *)
Fixpoint recalibrate (cur : option string) (current_coin_price : Q)
    (ps : list Pair) : M W (list Pair) :=
  match ps with
  | [] => ret []
  | pr :: rest =>
      if to_coin_is cur pr then
        from_coin_price <- ticker (coin_add (from_coin pr) (BRIDGE config)) ;;
        match from_coin_price with
        | None =>
            logger_info ("Skipping update for coin "
                         +:+ coin_add (from_coin pr) (BRIDGE config)
                         +:+ " not found") ;;
            rest' <- recalibrate cur current_coin_price rest ;;
            ret (pr :: rest')
        | Some fp =>
            r <- py_div fp current_coin_price ;;
            rest' <- recalibrate cur current_coin_price rest ;;
            ret (set_ratio pr r :: rest')
        end
      else
        rest' <- recalibrate cur current_coin_price rest ;;
        ret (pr :: rest')
  end.

Definition update_trade_threshold (current_coin_price : option Q) : M W unit :=
  cur <- get_current_coin ;;
  match current_coin_price with
  | None =>
      sym <- held_add cur (BRIDGE config) ;;
      logger_info ("Skipping update... current coin " +:+ sym +:+ " not found")
  | Some p =>
      ps <- query_pairs ;;
      ps' <- recalibrate cur p ps ;;
      commit_pairs ps'
  end.

(** ** transaction_through_bridge (lines 23-37) *)

(** The [while result is None] loop of lines 32-34. *)
Fixpoint buy_until_success (fuel : nat) (coin : string) : M W OrderResult :=
  match fuel with
  | O => out_of_fuel
  | S fuel' =>
      result <- call_buy_alt coin (BRIDGE config) ;;
      match result with
      | Some r => ret r
      | None => buy_until_success fuel' coin
      end
  end.

Definition transaction_through_bridge (fuel : nat) (pr : Pair) : M W unit :=
  emit (EvTransaction pr) ;;
  sold <- call_sell_alt (symbol (from_coin pr)) (BRIDGE config) ;;
  match sold with
  | None => logger_info "Couldn't sell, going back to scouting mode..."
  | Some _ =>
      result <- buy_until_success fuel (symbol (to_coin pr)) ;;
      set_current_coin (symbol (to_coin pr)) ;;
      update_trade_threshold (Some (price result))
  end.

(** ** initialize_trade_thresholds (lines 62-87) *)

(** The [for] loop of lines 68-87; rows whose ratio is already set are not
    selected by the query and pass through.  A coin is printed by its
    symbol. *)
Fixpoint calibrate (ps : list Pair) : M W (list Pair) :=
  match ps with
  | [] => ret []
  | pr :: rest =>
      match ratio pr with
      | Some _ => rest' <- calibrate rest ;; ret (pr :: rest')
      | None =>
          if negb (enabled (from_coin pr)) || negb (enabled (to_coin pr)) then
            rest' <- calibrate rest ;; ret (pr :: rest')
          else
            logger_info ("Initializing " +:+ symbol (from_coin pr) +:+ " vs "
                         +:+ symbol (to_coin pr)) ;;
            from_coin_price <- ticker (coin_add (from_coin pr) (BRIDGE config)) ;;
            match from_coin_price with
            | None =>
                logger_info ("Skipping initializing "
                             +:+ coin_add (from_coin pr) (BRIDGE config)
                             +:+ ", symbol not found") ;;
                rest' <- calibrate rest ;; ret (pr :: rest')
            | Some fp =>
                to_coin_price <- ticker (coin_add (to_coin pr) (BRIDGE config)) ;;
                match to_coin_price with
                | None =>
                    logger_info ("Skipping initializing "
                                 +:+ coin_add (to_coin pr) (BRIDGE config)
                                 +:+ ", symbol not found") ;;
                    rest' <- calibrate rest ;; ret (pr :: rest')
                | Some tp =>
                    r <- py_div fp tp ;;
                    rest' <- calibrate rest ;;
                    ret (set_ratio pr r :: rest')
                end
            end
      end
  end.

Definition initialize_trade_thresholds : M W unit :=
  ps <- query_pairs ;;
  ps' <- calibrate ps ;;
  commit_pairs ps'.

(** ** initialize_current_coin (lines 89-109) *)

(** [random.choice(seq)] for the draw [rnd]; an empty sequence raises
    [IndexError]. *)
Definition random_choice (rnd : nat) (seq : list string) : M W string :=
  match seq !! (rnd mod length seq)%nat with
  | Some c => ret c
  | None => raise IndexError
  end.

(** [symbol in self.config.SUPPORTED_COIN_LIST] *)
Definition supported (sym : string) : bool :=
  existsb (String.eqb sym) (SUPPORTED_COIN_LIST config).

Definition exit_message : string :=
  "***
ERROR!
Since there is no backup file, a proper coin name must be provided at init
***".

Definition initialize_current_coin (rnd : nat) : M W unit :=
  held <- get_current_coin ;;
  match held with
  | Some _ => ret tt
  | None =>
      current_coin_symbol <-
        (if String.eqb (CURRENT_COIN_SYMBOL config) ""
         then random_choice rnd (SUPPORTED_COIN_LIST config)
         else ret (CURRENT_COIN_SYMBOL config)) ;;
      logger_info ("Setting initial coin to " +:+ current_coin_symbol) ;;
      (if negb (supported current_coin_symbol)
       then raise (SystemExit exit_message)
       else ret tt) ;;
      set_current_coin current_coin_symbol ;;
      if String.eqb (CURRENT_COIN_SYMBOL config) "" then
        cur <- get_current_coin ;;
        match cur with
        | None => raise TypeError
        | Some c =>
            logger_info ("Purchasing " +:+ c +:+ " to begin trading") ;;
            call_buy_alt c (BRIDGE config) ;;
            logger_info "Ready to start trading"
        end
      else ret tt
  end.

(** ** scout (lines 111-178) *)

(** [x - pair.ratio]: subtracting [None] from a float raises [TypeError]. *)
Definition sub_ratio (x : Q) (r : option Q) : M W Q :=
  match r with
  | Some r => ret (x - r)
  | None => raise TypeError
  end.

(** The [for] loop of lines 129-152.  [ratio_dict] is keyed by the [Pair]
    objects themselves, one per row, so it is the list of the evaluated
    pairs with their values, in insertion order. *)
Fixpoint scout_pairs (current_coin_price : Q) (ps : list Pair)
    : M W (list (Pair * Q)) :=
  match ps with
  | [] => ret []
  | pr :: rest =>
      if negb (enabled (to_coin pr)) then scout_pairs current_coin_price rest
      else
        optional_coin_price <- ticker (coin_add (to_coin pr) (BRIDGE config)) ;;
        match optional_coin_price with
        | None =>
            logger_info ("Skipping scouting... optional coin "
                         +:+ coin_add (to_coin pr) (BRIDGE config)
                         +:+ " not found") ;;
            scout_pairs current_coin_price rest
        | Some op =>
            coin_opt_coin_ratio <- py_div current_coin_price op ;;
            fee_sell <- fee (symbol (from_coin pr)) (BRIDGE config) true ;;
            fee_buy <- fee (symbol (to_coin pr)) (BRIDGE config) false ;;
            let transaction_fee := fee_sell + fee_buy in
            v <- sub_ratio
                   (coin_opt_coin_ratio
                    - transaction_fee * SCOUT_MULTIPLIER config * coin_opt_coin_ratio)
                   (ratio pr) ;;
            ratio_dict <- scout_pairs current_coin_price rest ;;
            ret ((pr, v) :: ratio_dict)
        end
  end.

(** Line 155: [{k: v for k, v in ratio_dict.items() if v > 0}] *)
Definition ratio_dict_filtered (ratio_dict : list (Pair * Q)) : list (Pair * Q) :=
  filter (fun kv => Qltb 0 (snd kv)) ratio_dict.

(** Line 160: [max(d, key=d.get)] keeps the first key and replaces it only
    by a key with a strictly larger value. *)
Fixpoint max_from (best : Pair * Q) (l : list (Pair * Q)) : Pair * Q :=
  match l with
  | [] => best
  | kv :: rest =>
      if Qltb (snd best) (snd kv) then max_from kv rest else max_from best rest
  end.

Definition py_max (d : list (Pair * Q)) : option (Pair * Q) :=
  match d with
  | [] => None
  | kv :: rest => Some (max_from kv rest)
  end.

(** Lines 165-176.  The loop updates the best coin of the cycle and the
    ledger independently of each other; each is a fold of its own here.
    [None] is minus infinity. *)
Fixpoint current_best (ratio_dict : list (Pair * Q)) (best_coin : string)
    (best_ratio : option Q) : string * option Q :=
  match ratio_dict with
  | [] => (best_coin, best_ratio)
  | (pr, v) :: rest =>
      if match best_ratio with None => true | Some b => Qltb b v end
      then current_best rest (symbol (to_coin pr)) (Some v)
      else current_best rest best_coin best_ratio
  end.

Definition pair_tuple (pr : Pair) : string * string :=
  (symbol (from_coin pr), symbol (to_coin pr)).

Fixpoint record_best_ratios (ratio_dict : list (Pair * Q))
    (ledger : gmap (string * string) Q) : gmap (string * string) Q :=
  match ratio_dict with
  | [] => ledger
  | (pr, v) :: rest =>
      match ledger !! pair_tuple pr with
      | Some old => record_best_ratios rest (<[pair_tuple pr := py_max2 old v]> ledger)
      | None => record_best_ratios rest (<[pair_tuple pr := v]> ledger)
      end
  end.

(** [self.best_ratios.clear()] *)
Definition clear_best_ratios : M W unit :=
  fun s => Returned tt
    (mkState (exchange s) (current_coin s) (pair_table s) ∅ (trace s)).

Definition update_best_ratios (ratio_dict : list (Pair * Q)) : M W unit :=
  fun s => Returned tt
    (mkState (exchange s) (current_coin s) (pair_table s)
             (record_best_ratios ratio_dict (best_ratios s)) (trace s)).

(** Lines 154-163: jump to the best of the profitable pairs, if any. *)
Definition jump_to_best (fuel : nat) (cur : string)
    (ratio_dict : list (Pair * Q)) : M W unit :=
  match py_max (ratio_dict_filtered ratio_dict) with
  | Some best_pair =>
      logger_info ("Will be jumping from " +:+ cur +:+ " to "
                   +:+ to_coin_id (fst best_pair)) ;;
      transaction_through_bridge fuel (fst best_pair) ;;
      clear_best_ratios
  | None => ret tt
  end.

(** Lines 165-178: the ledger and the best coin of the cycle. *)
Definition report_best (ratio_dict : list (Pair * Q)) : M W unit :=
  update_best_ratios ratio_dict ;;
  let '(best_coin, best_ratio) := current_best ratio_dict "" None in
  emit (EvBest best_coin best_ratio).

Definition scout (fuel : nat) : M W unit :=
  held <- get_current_coin ;;
  match held with
  | None => raise TypeError
  | Some cur =>
      current_coin_price <- ticker (cur +:+ BRIDGE config) ;;
      match current_coin_price with
      | None =>
          logger_info ("Skipping scouting... current coin "
                       +:+ (cur +:+ BRIDGE config) +:+ " not found")
      | Some cp =>
          ps <- get_pairs_from cur ;;
          ratio_dict <- scout_pairs cp ps ;;
          jump_to_best fuel cur ratio_dict ;;
          report_best ratio_dict
      end
  end.

End AutoTrader.

(** ** Vocabulary of the properties *)

Definition is_info (e : Event) : bool :=
  match e with EvInfo _ => true | _ => false end.

(** The pairs the executor was entered with, newest first. *)
Definition transactions (tr : list Event) : list Pair :=
  omap (fun e => match e with EvTransaction p => Some p | _ => None end) tr.

(** The buy orders placed, newest first. *)
Definition buys (tr : list Event) : list (string * string) :=
  omap (fun e => match e with EvBuy o t => Some (o, t) | _ => None end) tr.

(** [s] with the events [evs] (newest first) logged on top. *)
Definition logged {W} (evs : list Event) (s : State W) : State W :=
  mkState (exchange s) (current_coin s) (pair_table s) (best_ratios s)
          (evs ++ trace s).

(** The sell orders placed, newest first. *)
Definition sells (tr : list Event) : list (string * string) :=
  omap (fun e => match e with EvSell o t => Some (o, t) | _ => None end) tr.

(** Two pair tables with the same rows, endpoint for endpoint, where no
    ratio that was set has been unset. *)
Definition same_pairs (ps ps' : list Pair) : Prop :=
  Forall2 (fun p p' => from_coin p' = from_coin p
                       /\ to_coin p' = to_coin p
                       /\ (is_Some (ratio p) -> is_Some (ratio p'))) ps ps'.

(** Events that are console or log output only. *)
Definition is_quiet (e : Event) : bool :=
  match e with EvInfo _ | EvBest _ _ => true | _ => false end.

Section Vocabulary.

Context {W : Type} {manager : BinanceAPIManager W} (config : Config).

(** What one row becomes under [recalibrate]. *)
Definition recalibrated (w : W) (cur : option string) (p : Q) (pr : Pair) : Pair :=
  if to_coin_is cur pr then
    match get_ticker_price (coin_add (from_coin pr) (BRIDGE config)) w with
    | Some fp => set_ratio pr (fp / p)
    | None => pr
    end
  else pr.

(** An outcome that is not the exhaustion of the fuel. *)
Definition terminates {A} (o : outcome W A) : Prop :=
  match o with OutOfFuel _ => False | _ => True end.

(** The computation ended (returned or raised) and did nothing to the state
    [s] it started from but log lines. *)
Definition ends_logged {A} (o : outcome W A) (s : State W) : Prop :=
  terminates o
  /\ exists evs, final_state o = logged evs s
                /\ Forall (fun e => is_info e = true) evs.

(** The exchange after [n] buy orders for [coin]. *)
Fixpoint after_buys (n : nat) (coin : string) (w : W) : W :=
  match n with
  | O => w
  | S n' => after_buys n' coin (buy_alt coin (BRIDGE config) w).2
  end.

(** The buy collaborator fails [n] times on [coin], then succeeds with the
    order [r]. *)
Definition buy_succeeds_after (n : nat) (coin : string) (w : W)
    (r : OrderResult) : Prop :=
  (forall k, (k < n)%nat ->
     (buy_alt coin (BRIDGE config) (after_buys k coin w)).1 = None)
  /\ (buy_alt coin (BRIDGE config) (after_buys n coin w)).1 = Some r.

(** A pair that the loop of [scout] evaluates: its destination is enabled
    and has a bridge price. *)
Definition viable (w : W) (pr : Pair) : bool :=
  enabled (to_coin pr)
  && bool_decide (is_Some (get_ticker_price (coin_add (to_coin pr) (BRIDGE config)) w)).

(** The advantage in the words of the specification:
    (raw_ratio - fee * scout_multiplier * raw_ratio) - calibration_ratio,
    with raw_ratio = held_price / candidate_price. *)
Definition spec_advantage (held_price candidate_price fee multiplier
    calibration_ratio : Q) : Q :=
  let raw_ratio := held_price / candidate_price in
  (raw_ratio - fee * multiplier * raw_ratio) - calibration_ratio.

(** The entry of [ratio_dict] for a pair, read off the exchange [w]. *)
Definition evaluated (w : W) (held_price : Q) (kv : Pair * Q) : Prop :=
  exists candidate_price calibration_ratio,
    get_ticker_price (coin_add (to_coin kv.1) (BRIDGE config)) w
      = Some candidate_price
    /\ ~ candidate_price == 0
    /\ ratio kv.1 = Some calibration_ratio
    /\ kv.2 = spec_advantage held_price candidate_price
                (get_fee (symbol (from_coin kv.1)) (BRIDGE config) true w
                 + get_fee (symbol (to_coin kv.1)) (BRIDGE config) false w)
                (SCOUT_MULTIPLIER config) calibration_ratio.

(** A row on which [calibrate] divides: no ratio yet, both coins enabled,
    both priced. *)
Definition calibrates (w : W) (pr : Pair) : bool :=
  bool_decide (ratio pr = None)
  && enabled (from_coin pr) && enabled (to_coin pr)
  && bool_decide (is_Some (get_ticker_price (coin_add (from_coin pr) (BRIDGE config)) w))
  && bool_decide (is_Some (get_ticker_price (coin_add (to_coin pr) (BRIDGE config)) w)).

(** What one row becomes under [calibrate]. *)
Definition initialized (w : W) (pr : Pair) : Pair :=
  match ratio pr with
  | Some _ => pr
  | None =>
      if negb (enabled (from_coin pr)) || negb (enabled (to_coin pr)) then pr
      else
        match get_ticker_price (coin_add (from_coin pr) (BRIDGE config)) w,
              get_ticker_price (coin_add (to_coin pr) (BRIDGE config)) w with
        | Some fp, Some tp => set_ratio pr (fp / tp)
        | _, _ => pr
        end
  end.

(** A row that [recalibrate] rewrites: it leads into the held coin and its
    source has a price. *)
Definition recalibrates (w : W) (cur : option string) (pr : Pair) : bool :=
  to_coin_is cur pr
  && bool_decide (is_Some (get_ticker_price (coin_add (from_coin pr) (BRIDGE config)) w)).

End Vocabulary.

(** ** A scripted exchange, for running the methods on concrete inputs *)

Module Demo.

(** Prices by ticker symbol, one fee for every leg, and the answers the
    next sell and buy orders will get (an exhausted script answers
    [None]). *)
Record Exchange := mkExchange {
  prices : list (string * Q);
  fee_rate : Q;
  sell_script : list (option OrderResult);
  buy_script : list (option OrderResult)
}.

Fixpoint lookup_price (sym : string) (l : list (string * Q)) : option Q :=
  match l with
  | [] => None
  | (k, v) :: rest => if String.eqb k sym then Some v else lookup_price sym rest
  end.

#[global] Instance manager : BinanceAPIManager Exchange := {
  get_ticker_price sym w := lookup_price sym (prices w);
  get_fee _ _ _ w := fee_rate w;
  sell_alt _ _ w :=
    match sell_script w with
    | [] => (None, w)
    | r :: rest => (r, mkExchange (prices w) (fee_rate w) rest (buy_script w))
    end;
  buy_alt _ _ w :=
    match buy_script w with
    | [] => (None, w)
    | r :: rest => (r, mkExchange (prices w) (fee_rate w) (sell_script w) rest)
    end
}.

Definition A : Coin := mkCoin "A" true.
Definition B : Coin := mkCoin "B" true.
Definition C : Coin := mkCoin "C" true.

Definition config : Config := mkConfig "USDT" 5 "" ["A"; "B"; "C"].

(** The same configuration with an initial symbol, supported or not. *)
Definition configured : Config := mkConfig "USDT" 5 "B" ["A"; "B"; "C"].
Definition misconfigured : Config := mkConfig "USDT" 5 "XYZ" ["A"; "B"; "C"].

Definition market : list (string * Q) :=
  [("AUSDT", 100); ("BUSDT", 80); ("CUSDT", 50)].

Definition start (w : Exchange) (held : option string) (ps : list Pair)
    : State Exchange :=
  mkState w held ps ∅ [].

(** The sell order is filled; the buy order fails twice, then is filled
    at 80. *)
Definition calm : Exchange :=
  mkExchange market 0.001 [Some (mkOrder 100)] [None; None; Some (mkOrder 80)].

(** The sell order is refused. *)
Definition no_sale : Exchange := mkExchange market 0.001 [None] [].

(** The price of B is missing. *)
Definition b_missing : Exchange :=
  mkExchange [("AUSDT", 100); ("CUSDT", 50)] 0.001 [Some (mkOrder 100)]
             [Some (mkOrder 50)].

(** Every order is filled at once. *)
Definition liquid : Exchange :=
  mkExchange market 0.001 [Some (mkOrder 100)] [Some (mkOrder 50)].

Definition ab (r : option Q) : Pair := mkPair A B r.
Definition ac (r : option Q) : Pair := mkPair A C r.
Definition ba (r : option Q) : Pair := mkPair B A r.
Definition cb (r : option Q) : Pair := mkPair C B r.

Definition table : list Pair :=
  [ab (Some 0.2); ac (Some 1); ba (Some 1); cb (Some 3)].

(** A state whose ledger holds an entry of an earlier cycle. *)
Definition later (w : Exchange) (held : option string) (ps : list Pair)
    : State Exchange :=
  mkState w held ps {[ ("A", "C") := 7 ]} [].


(** No initial symbol and nothing to choose from. *)
Definition unlisted : Config := mkConfig "USDT" 5 "" [].

(** A table before calibration: one row is set, one leads to the disabled
    coin D, two are to be calibrated. *)
Definition D : Coin := mkCoin "D" false.
Definition fresh : list Pair :=
  [ab None; ac (Some 1); mkPair A D None; cb None].




(** A table as calibration leaves it while B has no price, with the
    calibrated pair first. *)
Definition half_calibrated : list Pair := [ac (Some 1); ab None].

End Demo.

(** * Properties *)

(** ** Comparisons on rationals *)

Lemma Qltb_lt (a b : Q) : Qltb a b = true <-> a < b.
Proof.
  unfold Qltb. rewrite negb_true_iff, <- not_true_iff_false, Qle_bool_iff.
  split; [apply Qnot_le_lt | apply Qlt_not_le].
Qed.

Lemma Qltb_ge (a b : Q) : Qltb a b = false <-> b <= a.
Proof.
  unfold Qltb. rewrite negb_false_iff. apply Qle_bool_iff.
Qed.

Lemma py_div_nonzero {W} (a b : Q) (s : State W) :
  ~ b == 0 -> py_div a b s = Returned (a / b) s.
Proof.
  intros Hb. unfold py_div.
  destruct (Qeq_bool b 0) eqn:E; [|reflexivity].
  apply Qeq_bool_iff in E. contradiction.
Qed.

Lemma py_div_zero {W} (a b : Q) (s : State W) :
  b == 0 -> py_div a b s = Raised ZeroDivisionError s.
Proof.
  intros Hb. unfold py_div. apply Qeq_bool_iff in Hb. rewrite Hb. reflexivity.
Qed.

(** ** Traces and frames *)

Lemma logged_nil {W} (s : State W) : logged [] s = s.
Proof. destruct s; reflexivity. Qed.

Lemma logged_app {W} (e1 e2 : list Event) (s : State W) :
  logged e1 (logged e2 s) = logged (e1 ++ e2) s.
Proof. unfold logged; cbn. now rewrite app_assoc. Qed.

Lemma transactions_info (evs tr : list Event) :
  Forall (fun e => is_info e = true) evs ->
  transactions (evs ++ tr) = transactions tr.
Proof.
  induction 1 as [|e evs He _ IH]; [reflexivity|].
  destruct e; try discriminate. exact IH.
Qed.


Section Recalibration.

Context {W : Type} {manager : BinanceAPIManager W} (config : Config).

Lemma recalibrate_returns cur p ps (s : State W) :
  ~ p == 0 ->
  exists evs,
    recalibrate config cur p ps s
      = Returned (map (recalibrated config (exchange s) cur p) ps) (logged evs s)
    /\ Forall (fun e => is_info e = true) evs.
Proof.
  intros Hp. revert s. induction ps as [|pr rest IH]; intros s.
  - exists []. now rewrite logged_nil.
  - cbn [recalibrate map]. unfold recalibrated at 1.
    destruct (to_coin_is cur pr).
    + unfold bind at 1, ticker.
      destruct (get_ticker_price _ (exchange s)) as [fp|].
      * unfold bind at 1. rewrite (py_div_nonzero _ _ _ Hp).
        destruct (IH s) as (evs & E & Hevs).
        unfold bind. rewrite E. exists evs. split; [reflexivity | assumption].
     * unfold bind at 1, logger_info, emit.
       match goal with |- context [bind _ _ ?s1] => destruct (IH s1) as (evs & E & Hevs) end.
       unfold bind. rewrite E. cbn.
       eexists (evs ++ [_]). split.
       -- unfold logged, ret; cbn. rewrite <- app_assoc. reflexivity.
       -- apply Forall_app; split; [assumption | now constructor].
    + destruct (IH s) as (evs & E & Hevs).
      unfold bind. rewrite E. exists evs. split; [reflexivity | assumption].
Qed.

Lemma ends_logged_ret {A} (a : A) (s : State W) : ends_logged (ret a s) s.
Proof. split; [exact I|]. exists []. now rewrite logged_nil. Qed.

Lemma ends_logged_raise {A} e (s : State W) :
  ends_logged (raise (A:=A) e s) s.
Proof. split; [exact I|]. exists []. now rewrite logged_nil. Qed.

Lemma ends_logged_info msg (s : State W) : ends_logged (logger_info msg s) s.
Proof. split; [exact I|]. exists [EvInfo msg]. split; [reflexivity|]. now constructor. Qed.

Lemma ends_logged_bind {A B} (m : M W A) (k : A -> M W B) (s : State W) :
  ends_logged (m s) s ->
  (forall a s', m s = Returned a s' -> ends_logged (k a s') s') ->
  ends_logged (bind m k s) s.
Proof.
  intros (Ht & evs & E & Hevs) Hk. unfold bind.
  destruct (m s) as [a s'|e s'|s'] eqn:Hm; cbn in *; try contradiction.
  - subst s'. destruct (Hk a _ eq_refl) as (Ht' & evs' & E' & Hevs').
    split; [assumption|]. exists (evs' ++ evs). rewrite E', logged_app.
    split; [reflexivity | now apply Forall_app].
  - split; [exact I|]. now exists evs.
Qed.

Lemma ends_logged_py_div a b (s : State W) : ends_logged (py_div a b s) s.
Proof.
  unfold py_div. destruct (Qeq_bool b 0);
    [apply ends_logged_raise | apply ends_logged_ret].
Qed.

Lemma ends_logged_ticker sym (s : State W) : ends_logged (ticker sym s) s.
Proof. apply (ends_logged_ret (get_ticker_price sym (exchange s))). Qed.

Lemma ends_logged_fee o t b (s : State W) : ends_logged (fee o t b s) s.
Proof. apply (ends_logged_ret (get_fee o t b (exchange s))). Qed.

Lemma recalibrate_frame cur p ps (s : State W) :
  ends_logged (recalibrate config cur p ps s) s.
Proof.
  revert s. induction ps as [|pr rest IH]; intros s.
  - apply ends_logged_ret.
  - cbn [recalibrate]. destruct (to_coin_is cur pr).
    + apply ends_logged_bind; [apply ends_logged_ticker|].
      intros [fp|] s1 _.
      * apply ends_logged_bind; [apply ends_logged_py_div|]. intros r s2 _.
        apply ends_logged_bind; [apply IH|]. intros; apply ends_logged_ret.
      * apply ends_logged_bind; [apply ends_logged_info|]. intros _ s2 _.
        apply ends_logged_bind; [apply IH|]. intros; apply ends_logged_ret.
    + apply ends_logged_bind; [apply IH|]. intros; apply ends_logged_ret.
Qed.

Lemma update_trade_threshold_returns p (s : State W) :
  ~ p == 0 ->
  exists evs,
    update_trade_threshold config (Some p) s
      = Returned tt
          (mkState (exchange s) (current_coin s)
             (map (recalibrated config (exchange s) (current_coin s) p) (pair_table s))
             (best_ratios s) (evs ++ trace s))
    /\ Forall (fun e => is_info e = true) evs.
Proof.
  intros Hp.
  destruct (recalibrate_returns (current_coin s) p (pair_table s) s Hp)
    as (evs & E & Hevs).
  exists evs. split; [|assumption].
  unfold update_trade_threshold, bind, get_current_coin, query_pairs.
  rewrite E. reflexivity.
Qed.

Lemma update_trade_threshold_frame p (s : State W) :
  let o := update_trade_threshold config p s in
  exchange (final_state o) = exchange s
  /\ current_coin (final_state o) = current_coin s
  /\ best_ratios (final_state o) = best_ratios s
  /\ (exists evs, trace (final_state o) = evs ++ trace s
                  /\ Forall (fun e => is_info e = true) evs)
  /\ terminates o.
Proof.
  unfold update_trade_threshold, bind, get_current_coin, query_pairs.
  destruct p as [p|].
  - destruct (recalibrate_frame (current_coin s) p (pair_table s) s)
      as (Ht & evs & E & Hevs).
    destruct (recalibrate config (current_coin s) p (pair_table s) s)
      as [ps' s'|e s'|s']; cbn in *; try contradiction; subst s'; cbn;
      repeat split; eauto.
  - destruct (current_coin s) as [c|] eqn:Hc; cbn; rewrite ?Hc;
      (do 3 (split; [reflexivity|])); (split; [|exact I]).
    + eexists [_]. split; [reflexivity | now constructor].
    + now exists [].
Qed.

End Recalibration.

Section Transition.

Context {W : Type} {manager : BinanceAPIManager W} (config : Config).

Lemma final_state_bind {A B} (m : M W A) (k : A -> M W B) (s : State W) :
  final_state (bind m k s)
  = match m s with
    | Returned a s' => final_state (k a s')
    | Raised _ s' => s'
    | OutOfFuel s' => s'
    end.
Proof. unfold bind. now destruct (m s). Qed.

Lemma repeat_snoc_cons {A} (x : A) (n : nat) (l : list A) :
  repeat x n ++ x :: l = x :: repeat x n ++ l.
Proof. induction n as [|n IH]; cbn; [reflexivity | now rewrite IH]. Qed.

Lemma buy_until_success_returns n : forall coin (s : State W) r fuel,
  buy_succeeds_after config n coin (exchange s) r ->
  (n < fuel)%nat ->
  buy_until_success config fuel coin s
  = Returned r
      (mkState (after_buys config (S n) coin (exchange s)) (current_coin s)
         (pair_table s) (best_ratios s)
         (repeat (EvBuy coin (BRIDGE config)) (S n) ++ trace s)).
Proof.
  induction n as [|n IH]; intros coin s r fuel [Hfail Hok] Hlt;
    (destruct fuel as [|fuel]; [lia|]);
    cbn [buy_until_success after_buys]; unfold bind, call_buy_alt;
    cbn [after_buys] in Hok;
    destruct (buy_alt coin (BRIDGE config) (exchange s)) as [res w] eqn:E.
  - cbn in Hok. subst res. reflexivity.
  - assert (res = None) as ->.
    { specialize (Hfail 0%nat ltac:(lia)). cbn in Hfail. now rewrite E in Hfail. }
    rewrite (IH coin _ r fuel); cbn [exchange].
    + cbn. now rewrite repeat_snoc_cons.
    + split.
      * intros k Hk. specialize (Hfail (S k) ltac:(lia)). cbn in Hfail.
        now rewrite E in Hfail.
      * cbn in Hok. exact Hok.
    + lia.
Qed.

Lemma buy_until_success_frame fuel : forall coin (s : State W),
  let s' := final_state (buy_until_success config fuel coin s) in
  current_coin s' = current_coin s
  /\ pair_table s' = pair_table s
  /\ best_ratios s' = best_ratios s
  /\ transactions (trace s') = transactions (trace s).
Proof.
  induction fuel as [|fuel IH]; intros coin s; cbn [buy_until_success].
  - cbn. auto.
  - cbn zeta. rewrite final_state_bind. unfold call_buy_alt.
    destruct (buy_alt coin (BRIDGE config) (exchange s)) as [[r|] w].
    + cbn. auto.
    + match goal with
      | |- context [buy_until_success _ _ _ ?s1] =>
          destruct (IH coin s1) as (H1 & H2 & H3 & H4)
      end.
      cbn in *. auto.
Qed.

Lemma transaction_sell_failure fuel pr (s : State W) w' :
  sell_alt (symbol (from_coin pr)) (BRIDGE config) (exchange s) = (None, w') ->
  transaction_through_bridge config fuel pr s
  = Returned tt
      (mkState w' (current_coin s) (pair_table s) (best_ratios s)
         (EvInfo "Couldn't sell, going back to scouting mode..."
          :: EvSell (symbol (from_coin pr)) (BRIDGE config)
          :: EvTransaction pr :: trace s)).
Proof.
  intros Hsell. unfold transaction_through_bridge, bind, emit, call_sell_alt.
  cbn [exchange]. rewrite Hsell. reflexivity.
Qed.

Lemma transaction_enters fuel pr (s : State W) :
  transactions (trace (final_state (transaction_through_bridge config fuel pr s)))
  = pr :: transactions (trace s).
Proof.
  unfold transaction_through_bridge.
  rewrite final_state_bind. cbn [emit].
  rewrite final_state_bind. unfold call_sell_alt. cbn [exchange].
  destruct (sell_alt _ _ (exchange s)) as [[r0|] w1]; [|reflexivity].
  rewrite final_state_bind.
  match goal with
  | |- context [buy_until_success _ _ ?c ?s1] =>
      pose proof (buy_until_success_frame fuel c s1) as (_ & _ & _ & Hb);
      destruct (buy_until_success config fuel c s1) as [r s2|e s2|s2]
  end; cbn in Hb; try exact Hb.
  rewrite final_state_bind. cbn [set_current_coin].
  match goal with
  | |- context [update_trade_threshold _ ?p ?s3] =>
      pose proof (update_trade_threshold_frame config p s3)
        as (_ & _ & _ & (evs & -> & Hevs) & _)
  end.
  rewrite transactions_info by assumption. exact Hb.
Qed.

End Transition.

Section Scouting.

Context {W : Type} {manager : BinanceAPIManager W} (config : Config).

Lemma scout_pairs_frame cp ps (s : State W) :
  ends_logged (scout_pairs config cp ps s) s.
Proof.
  revert s. induction ps as [|pr rest IH]; intros s.
  - apply ends_logged_ret.
  - cbn [scout_pairs]. destruct (negb (enabled (to_coin pr))); [apply IH|].
    apply ends_logged_bind; [apply ends_logged_ticker|].
    intros [op|] s1 _.
    + apply ends_logged_bind; [apply ends_logged_py_div|]. intros r s2 _.
      apply ends_logged_bind; [apply ends_logged_fee|]. intros fs s3 _.
      apply ends_logged_bind; [apply ends_logged_fee|]. intros fb s4 _.
      apply ends_logged_bind.
      * unfold sub_ratio. destruct (ratio pr);
          [apply ends_logged_ret | apply ends_logged_raise].
      * intros v s5 _. apply ends_logged_bind; [apply IH|].
        intros; apply ends_logged_ret.
    + apply ends_logged_bind; [apply ends_logged_info|]. intros _ s2 _. apply IH.
Qed.

Lemma scout_pairs_returned cp ps (s s1 : State W) rd :
  scout_pairs config cp ps s = Returned rd s1 ->
  exists evs, s1 = logged evs s /\ Forall (fun e => is_info e = true) evs.
Proof.
  intros E. destruct (scout_pairs_frame cp ps s) as (_ & evs & Hf & Hevs).
  rewrite E in Hf. now exists evs.
Qed.

Lemma scout_pairs_result cp ps : forall (s s1 : State W) rd,
  scout_pairs config cp ps s = Returned rd s1 ->
  rd.*1 = filter (fun pr => viable config (exchange s) pr) ps
  /\ Forall (evaluated config (exchange s) cp) rd.
Proof.
  induction ps as [|pr rest IH]; intros s s1 rd E.
  - injection E as <- _. split; [reflexivity | constructor].
  - cbn [scout_pairs] in E.
    destruct (enabled (to_coin pr)) eqn:Hen; cbn [negb] in E.
    2:{ rewrite filter_cons_False by (unfold viable; rewrite Hen; cbn; tauto).
        apply (IH _ _ _ E). }
    unfold bind at 1, ticker in E.
    destruct (get_ticker_price (coin_add (to_coin pr) (BRIDGE config)) (exchange s))
      as [op|] eqn:Hop.
    + rewrite filter_cons_True
        by (unfold viable; rewrite Hen, Hop; done).
      unfold bind at 1, py_div in E.
      destruct (Qeq_bool op 0) eqn:Hz; [discriminate|].
      apply Qeq_bool_neq in Hz.
      unfold bind at 1, fee in E. unfold bind at 1 in E.
      unfold bind at 1, sub_ratio in E.
      destruct (ratio pr) as [r|] eqn:Hr; [|discriminate].
      unfold bind, ret in E.
      destruct (scout_pairs config cp rest s) as [rd' s'|e s'|s'] eqn:E';
        try discriminate.
      injection E as <- <-.
      destruct (IH _ _ _ E') as (IH1 & IH2).
      split; [cbn; now rewrite IH1|].
      constructor; [|assumption].
      exists op, r. cbn. auto.
    + rewrite filter_cons_False.
      2:{ unfold viable. rewrite Hen, Hop. cbn. tauto. }
      unfold bind, logger_info, emit in E.
      apply IH in E. exact E.
Qed.

End Scouting.

(** ** The choice of the best pair *)

Lemma max_from_spec (l : list (Pair * Q)) : forall best,
  exists l1 l2,
    best :: l = l1 ++ max_from best l :: l2
    /\ Forall (fun kv => kv.2 < (max_from best l).2) l1
    /\ Forall (fun kv => kv.2 <= (max_from best l).2) l2.
Proof.
  induction l as [|kv rest IH]; intros best; cbn [max_from].
  - exists [], []. repeat split; constructor.
  - destruct (Qltb best.2 kv.2) eqn:Hlt.
    + apply Qltb_lt in Hlt.
      destruct (IH kv) as (l1 & l2 & E & H1 & H2).
      exists (best :: l1), l2. rewrite E. split; [reflexivity|].
      split; [|assumption]. constructor; [|assumption].
      eapply Qlt_le_trans; [exact Hlt|].
      destruct l1 as [|x l1]; cbn in E.
      * injection E as <- _. apply Qle_refl.
      * injection E as <- _. apply Qlt_le_weak. now inversion H1.
    + apply Qltb_ge in Hlt.
      destruct (IH best) as (l1 & l2 & E & H1 & H2).
      destruct l1 as [|x l1]; cbn in E.
      * injection E as E0 E1. exists [], (kv :: l2).
        rewrite <- E0 in *. subst l2. split; [reflexivity|].
        split; [constructor|]. constructor; assumption.
      * injection E as <- E1. exists (best :: kv :: l1), l2.
        split; [cbn; do 2 f_equal; exact E1|]. split; [|assumption].
        inversion H1 as [|? ? Hb Hl1]; subst.
        constructor; [assumption|]. constructor; [|assumption].
        eapply Qle_lt_trans; eassumption.
Qed.

Lemma filter_positive_split (rd l1 l2 : list (Pair * Q)) best :
  ratio_dict_filtered rd = l1 ++ best :: l2 ->
  exists r1 r2,
    rd = r1 ++ best :: r2
    /\ ratio_dict_filtered r1 = l1
    /\ ratio_dict_filtered r2 = l2
    /\ 0 < best.2.
Proof.
  unfold ratio_dict_filtered. revert l1.
  induction rd as [|kv rest IH]; intros l1 E.
  - now destruct l1.
  - destruct (Qltb 0 kv.2) eqn:Hpos.
    + rewrite filter_cons_True in E by now rewrite Hpos.
      destruct l1 as [|x l1]; cbn in E.
      * injection E as -> E. exists [], rest.
        repeat split; try assumption. now apply Qltb_lt.
      * injection E as -> E. destruct (IH _ E) as (r1 & r2 & -> & F1 & F2 & Hb).
        exists (x :: r1), r2. repeat split; try assumption.
        rewrite filter_cons_True by now rewrite Hpos. now rewrite F1.
    + rewrite filter_cons_False in E by now rewrite Hpos.
      destruct (IH _ E) as (r1 & r2 & -> & F1 & F2 & Hb).
      exists (kv :: r1), r2. repeat split; try assumption.
      rewrite filter_cons_False by now rewrite Hpos. exact F1.
Qed.

Lemma filtered_bound (P : Q -> Prop) (r : list (Pair * Q)) :
  (forall x, ~ 0 < x -> P x) ->
  Forall (fun kv => P kv.2) (ratio_dict_filtered r) ->
  Forall (fun kv => P kv.2) r.
Proof.
  intros Hneg HF. apply Forall_forall. intros kv Hin.
  destruct (Qltb 0 kv.2) eqn:Hpos.
  - rewrite Forall_forall in HF. apply HF.
    apply list_elem_of_filter. split; [now rewrite Hpos | assumption].
  - apply Hneg. intros H%Qltb_lt. congruence.
Qed.

(** [py_max] on the profitable pairs picks the first pair of [rd] whose
    value is the largest, and that value is positive. *)
Lemma py_max_filtered_spec (rd : list (Pair * Q)) best :
  py_max (ratio_dict_filtered rd) = Some best ->
  exists r1 r2,
    rd = r1 ++ best :: r2
    /\ 0 < best.2
    /\ Forall (fun kv => kv.2 < best.2) r1
    /\ Forall (fun kv => kv.2 <= best.2) r2.
Proof.
  unfold py_max. destruct (ratio_dict_filtered rd) as [|kv rest] eqn:E;
    [discriminate|]. intros [= <-].
  destruct (max_from_spec rest kv) as (l1 & l2 & E1 & H1 & H2).
  rewrite E1 in E.
  destruct (filter_positive_split _ _ _ _ E) as (r1 & r2 & -> & F1 & F2 & Hb).
  exists r1, r2. repeat split; try assumption.
  - apply (filtered_bound (fun x => x < (max_from kv rest).2)).
    + intros x Hx. eapply Qle_lt_trans; [|exact Hb]. now apply Qnot_lt_le.
    + now rewrite F1.
  - apply (filtered_bound (fun x => x <= (max_from kv rest).2)).
    + intros x Hx. apply Qlt_le_weak.
      eapply Qle_lt_trans; [|exact Hb]. now apply Qnot_lt_le.
    + now rewrite F2.
Qed.

Lemma py_max_filtered_none (rd : list (Pair * Q)) :
  py_max (ratio_dict_filtered rd) = None <->
  forall kv, kv ∈ rd -> ~ 0 < kv.2.
Proof.
  unfold py_max. split.
  - destruct (ratio_dict_filtered rd) eqn:E; [|discriminate].
    intros _ kv Hin Hpos.
    assert (kv ∈ ratio_dict_filtered rd) as Hf.
    { apply list_elem_of_filter. split; [|assumption].
      apply Qltb_lt in Hpos. now rewrite Hpos. }
    rewrite E in Hf. inversion Hf.
  - intros Hall. destruct (ratio_dict_filtered rd) as [|kv rest] eqn:E;
      [reflexivity|]. exfalso.
    assert (kv ∈ ratio_dict_filtered rd) as Hf by (rewrite E; left).
    apply list_elem_of_filter in Hf as [Hp Hin].
    apply (Hall kv Hin). apply Qltb_lt. now destruct (Qltb 0 kv.2).
Qed.

(** ** The ledger *)



Lemma record_best_ratios_keeps (rd : list (Pair * Q)) :
  forall (m : gmap (string * string) Q) k,
    is_Some (m !! k) -> is_Some (record_best_ratios rd m !! k).
Proof.
  induction rd as [|[pr x] rest IH]; intros m k Hk; cbn [record_best_ratios];
    [assumption|].
  destruct (m !! pair_tuple pr) eqn:E; apply IH;
    (destruct (decide (pair_tuple pr = k)) as [<-|Hne];
     [rewrite lookup_insert_eq; eauto | now rewrite lookup_insert_ne]).
Qed.

Lemma record_best_ratios_covers (rd : list (Pair * Q)) :
  forall (m : gmap (string * string) Q) kv,
    kv ∈ rd -> is_Some (record_best_ratios rd m !! pair_tuple kv.1).
Proof.
  induction rd as [|[pr x] rest IH]; intros m kv Hin; [inversion Hin|].
  cbn [record_best_ratios].
  apply elem_of_cons in Hin as [->|Hin].
  - cbn. destruct (m !! pair_tuple pr); apply record_best_ratios_keeps;
      rewrite lookup_insert_eq; eauto.
  - destruct (m !! pair_tuple pr); now apply IH.
Qed.

(** ** One scouting cycle *)

Section Cycle.

Context {W : Type} {manager : BinanceAPIManager W} (config : Config).

Lemma recalibrate_result cur p ps : forall (s s' : State W) ps',
  recalibrate config cur p ps s = Returned ps' s' ->
  ps' = map (recalibrated config (exchange s) cur p) ps.
Proof.
  induction ps as [|pr rest IH]; intros s s' ps' E.
  - now injection E as <- _.
  - cbn [recalibrate map] in *. unfold recalibrated at 1.
    destruct (to_coin_is cur pr).
    + unfold bind at 1, ticker in E.
      destruct (get_ticker_price _ (exchange s)) as [fp|].
      * unfold bind at 1, py_div in E.
        destruct (Qeq_bool p 0); [discriminate|].
        unfold bind, ret in E.
        destruct (recalibrate config cur p rest s) as [r1 s1| |] eqn:E1;
          try discriminate.
        injection E as <- _. f_equal. exact (IH _ _ _ E1).
      * unfold bind, logger_info, emit, ret in E.
        match type of E with
        | context [recalibrate _ _ _ _ ?s0] =>
            destruct (recalibrate config cur p rest s0) as [r1 s1| |] eqn:E1
        end; try discriminate.
        injection E as <- _. f_equal. exact (IH _ _ _ E1).
    + unfold bind, ret in E.
      destruct (recalibrate config cur p rest s) as [r1 s1| |] eqn:E1;
        try discriminate.
      injection E as <- _. f_equal. exact (IH _ _ _ E1).
Qed.

Lemma report_best_returns rd (s : State W) :
  report_best rd s
  = Returned tt
      (mkState (exchange s) (current_coin s) (pair_table s)
         (record_best_ratios rd (best_ratios s))
         (EvBest (current_best rd "" None).1 (current_best rd "" None).2
          :: trace s)).
Proof.
  unfold report_best, bind, update_best_ratios.
  now destruct (current_best rd "" None).
Qed.

Lemma scout_unfold fuel (s s1 : State W) cur cp rd :
  current_coin s = Some cur ->
  get_ticker_price (cur +:+ BRIDGE config) (exchange s) = Some cp ->
  (ps <- get_pairs_from cur ;; scout_pairs config cp ps) s = Returned rd s1 ->
  scout config fuel s
  = (jump_to_best config fuel cur rd ;; report_best rd) s1.
Proof.
  intros Hcur Hcp Hrd. unfold scout, bind, get_current_coin, ticker.
  rewrite Hcur, Hcp. unfold bind, get_pairs_from in Hrd. cbn in *.
  now rewrite Hrd.
Qed.

Lemma evaluation_frame (s s1 : State W) cur cp rd :
  (ps <- get_pairs_from cur ;; scout_pairs config cp ps) s = Returned rd s1 ->
  exists evs, s1 = logged evs s /\ Forall (fun e => is_info e = true) evs.
Proof.
  unfold bind, get_pairs_from. apply scout_pairs_returned.
Qed.

(** The executor is entered with the choice of [py_max], and only then. *)
Lemma scout_transactions fuel (s s1 : State W) cur cp rd :
  current_coin s = Some cur ->
  get_ticker_price (cur +:+ BRIDGE config) (exchange s) = Some cp ->
  (ps <- get_pairs_from cur ;; scout_pairs config cp ps) s = Returned rd s1 ->
  transactions (trace (final_state (scout config fuel s)))
  = match py_max (ratio_dict_filtered rd) with
    | Some best => best.1 :: transactions (trace s)
    | None => transactions (trace s)
    end.
Proof.
  intros Hcur Hcp Hrd. rewrite (scout_unfold fuel s s1 cur cp rd) by assumption.
  destruct (evaluation_frame _ _ _ _ _ Hrd) as (evs & -> & Hevs).
  rewrite final_state_bind. unfold jump_to_best.
  destruct (py_max (ratio_dict_filtered rd)) as [best|].
  - unfold bind, logger_info, emit, clear_best_ratios.
    match goal with
    | |- context [transaction_through_bridge _ _ _ ?s0] =>
        pose proof (transaction_enters config fuel best.1 s0) as Ht;
        assert (transactions (trace s0) = transactions (trace s)) as Hs0
          by (apply (transactions_info (_ :: evs)); now constructor);
        rewrite Hs0 in Ht; clear Hs0;
        destruct (transaction_through_bridge config fuel best.1 s0)
          as [[] s2|e s2|s2]
    end.
    + rewrite report_best_returns. exact Ht.
    + exact Ht.
    + exact Ht.
  - unfold ret. cbv beta iota. rewrite report_best_returns.
    now apply (transactions_info evs).
Qed.

Lemma scout_no_jump fuel (s s1 : State W) cur cp rd :
  current_coin s = Some cur ->
  get_ticker_price (cur +:+ BRIDGE config) (exchange s) = Some cp ->
  (ps <- get_pairs_from cur ;; scout_pairs config cp ps) s = Returned rd s1 ->
  py_max (ratio_dict_filtered rd) = None ->
  exists s',
    scout config fuel s = Returned tt s'
    /\ exchange s' = exchange s
    /\ current_coin s' = current_coin s
    /\ pair_table s' = pair_table s
    /\ best_ratios s' = record_best_ratios rd (best_ratios s).
Proof.
  intros Hcur Hcp Hrd Hmax.
  rewrite (scout_unfold fuel s s1 cur cp rd) by assumption.
  destruct (evaluation_frame _ _ _ _ _ Hrd) as (evs & -> & Hevs).
  unfold bind, jump_to_best. rewrite Hmax. unfold ret. cbv beta iota.
  rewrite report_best_returns.
  eexists. split; [reflexivity|]. cbn. auto.
Qed.

Lemma scout_jump fuel (s s1 : State W) cur cp rd best :
  current_coin s = Some cur ->
  get_ticker_price (cur +:+ BRIDGE config) (exchange s) = Some cp ->
  (ps <- get_pairs_from cur ;; scout_pairs config cp ps) s = Returned rd s1 ->
  py_max (ratio_dict_filtered rd) = Some best ->
  exists evs,
    Forall (fun e => is_info e = true) evs
    /\ scout config fuel s
       = match transaction_through_bridge config fuel best.1 (logged evs s) with
         | Returned _ s2 =>
             Returned tt
               (mkState (exchange s2) (current_coin s2) (pair_table s2)
                  (record_best_ratios rd ∅)
                  (EvBest (current_best rd "" None).1 (current_best rd "" None).2
                   :: trace s2))
         | Raised e s2 => Raised e s2
         | OutOfFuel s2 => OutOfFuel s2
         end.
Proof.
  intros Hcur Hcp Hrd Hmax.
  rewrite (scout_unfold fuel s s1 cur cp rd) by assumption.
  destruct (evaluation_frame _ _ _ _ _ Hrd) as (evs & -> & Hevs).
  exists (EvInfo ("Will be jumping from " +:+ cur +:+ " to "
                  +:+ to_coin_id best.1) :: evs).
  split; [constructor; [reflexivity | exact Hevs]|].
  unfold bind at 1, jump_to_best. rewrite Hmax.
  unfold bind, logger_info, emit, clear_best_ratios.
  match goal with
  | |- context [transaction_through_bridge _ _ _ ?s0] =>
      change s0 with
        (logged (EvInfo ("Will be jumping from " +:+ cur +:+ " to "
                         +:+ to_coin_id best.1) :: evs) s);
      destruct (transaction_through_bridge config fuel best.1
                  (logged (EvInfo ("Will be jumping from " +:+ cur +:+ " to "
                                   +:+ to_coin_id best.1) :: evs) s))
        as [[] s2|e s2|s2]
  end; try reflexivity.
  now rewrite report_best_returns.
Qed.

End Cycle.

(** ** The outcomes of a cycle *)

Lemma quiet_of_info (evs : list Event) :
  Forall (fun e => is_info e = true) evs ->
  Forall (fun e => is_quiet e = true) evs.
Proof. intros H. eapply Forall_impl; [exact H|]. now intros []. Qed.

Lemma transactions_quiet (evs tr : list Event) :
  Forall (fun e => is_quiet e = true) evs ->
  transactions (evs ++ tr) = transactions tr.
Proof.
  induction 1 as [|e evs He _ IH]; [reflexivity|].
  destruct e; try discriminate; exact IH.
Qed.

Lemma sells_quiet (evs tr : list Event) :
  Forall (fun e => is_quiet e = true) evs ->
  sells (evs ++ tr) = sells tr.
Proof.
  induction 1 as [|e evs He _ IH]; [reflexivity|].
  destruct e; try discriminate; exact IH.
Qed.

Lemma buys_quiet (evs tr : list Event) :
  Forall (fun e => is_quiet e = true) evs ->
  buys (evs ++ tr) = buys tr.
Proof.
  induction 1 as [|e evs He _ IH]; [reflexivity|].
  destruct e; try discriminate; exact IH.
Qed.

Section ScoutTheorems.

Context {W : Type} {manager : BinanceAPIManager W} (config : Config).

Lemma scout_pairs_raises cp ps : forall (s s' : State W) e,
  scout_pairs config cp ps s = Raised e s' ->
  e = TypeError \/ e = ZeroDivisionError.
Proof.
  induction ps as [|pr rest IH]; intros s s' e E; [discriminate|].
  cbn [scout_pairs] in E.
  destruct (negb (enabled (to_coin pr))); [exact (IH _ _ _ E)|].
  unfold bind at 1, ticker in E.
  destruct (get_ticker_price (coin_add (to_coin pr) (BRIDGE config)) (exchange s)).
  - unfold bind at 1, py_div in E.
    destruct (Qeq_bool q 0); [injection E as <- _; now right|].
    unfold bind at 1 2 3, fee, sub_ratio in E.
    destruct (ratio pr); [|injection E as <- _; now left].
    unfold bind, ret in E.
    destruct (scout_pairs config cp rest s) as [l s1| |] eqn:E1; try discriminate.
    injection E as -> _. exact (IH _ _ _ E1).
  - unfold bind, logger_info, emit in E. exact (IH _ _ _ E).
Qed.

(** What is known of a pair that the evaluation loop kept. *)
Lemma evaluated_pair_facts (s s1 : State W) cur cp rd kv :
  (ps <- get_pairs_from cur ;; scout_pairs config cp ps) s = Returned rd s1 ->
  kv ∈ rd ->
  kv.1 ∈ pair_table s
  /\ symbol (from_coin kv.1) = cur
  /\ enabled (to_coin kv.1) = true
  /\ is_Some (get_ticker_price (symbol (to_coin kv.1) +:+ BRIDGE config) (exchange s))
  /\ is_Some (ratio kv.1).
Proof.
  unfold bind, get_pairs_from. intros Hrd Hin.
  destruct (scout_pairs_result config _ _ _ _ _ Hrd) as (Hkeys & Hall).
  assert (kv.1 ∈ rd.*1) as Hk by (apply list_elem_of_fmap; eauto).
  rewrite Hkeys in Hk.
  apply list_elem_of_filter in Hk as [Hv Hk].
  apply list_elem_of_filter in Hk as [Hfrom Hk].
  rewrite Forall_forall in Hall.
  destruct (Hall kv Hin) as (op & r & Hop & _ & Hr & _).
  split; [exact Hk|]. split.
  { apply String.eqb_eq. now destruct (String.eqb (symbol (from_coin kv.1)) cur). }
  unfold viable in Hv. cbn [exchange] in Hv.
  split; [now destruct (enabled (to_coin kv.1))|].
  unfold coin_add in Hop. split; [rewrite Hop | rewrite Hr]; eauto.
Qed.

(** The two ways a cycle can go: no order at all, or one jump. *)
Lemma scout_cases fuel (s : State W) :
  let o := scout config fuel s in
  (terminates o
   /\ (forall e s', o = Raised e s' -> e = TypeError \/ e = ZeroDivisionError)
   /\ exists evs ledger,
        final_state o
        = mkState (exchange s) (current_coin s) (pair_table s) ledger
                  (evs ++ trace s)
        /\ Forall (fun e => is_quiet e = true) evs
        /\ (ledger = best_ratios s
            \/ exists rd, ledger = record_best_ratios rd (best_ratios s)))
  \/ (exists cur cp rd s1 best evs,
        current_coin s = Some cur
        /\ get_ticker_price (cur +:+ BRIDGE config) (exchange s) = Some cp
        /\ (ps <- get_pairs_from cur ;; scout_pairs config cp ps) s
           = Returned rd s1
        /\ py_max (ratio_dict_filtered rd) = Some best
        /\ Forall (fun e => is_info e = true) evs
        /\ o = match transaction_through_bridge config fuel best.1 (logged evs s) with
               | Returned _ s2 =>
                   Returned tt
                     (mkState (exchange s2) (current_coin s2) (pair_table s2)
                        (record_best_ratios rd ∅)
                        (EvBest (current_best rd "" None).1
                                (current_best rd "" None).2 :: trace s2))
               | Raised e s2 => Raised e s2
               | OutOfFuel s2 => OutOfFuel s2
               end).
Proof.
  cbn zeta.
  destruct (current_coin s) as [cur|] eqn:Hcur.
  2:{ left. unfold scout, bind, get_current_coin. rewrite Hcur. cbn.
      split; [exact I|]. split; [intros ? ? [= <- _]; now left|].
      exists [], (best_ratios s). split; [now destruct s; cbn in *; subst|].
      split; [constructor | now left]. }
  destruct (get_ticker_price (cur +:+ BRIDGE config) (exchange s)) as [cp|] eqn:Hcp.
  2:{ left. unfold scout, bind, get_current_coin, ticker.
      rewrite Hcur, Hcp. cbn. split; [exact I|]. split; [discriminate|].
      eexists [_], (best_ratios s).
      split; [cbn; rewrite Hcur; reflexivity|].
      split; [now constructor | now left]. }
  destruct ((ps <- get_pairs_from cur ;; scout_pairs config cp ps) s)
    as [rd s1|e s1|s1] eqn:Hrd.
  - destruct (py_max (ratio_dict_filtered rd)) as [best|] eqn:Hmax.
    + right.
      destruct (scout_jump config fuel s s1 cur cp rd best Hcur Hcp Hrd Hmax)
        as (evs & Hevs & E).
      exists cur, cp, rd, s1, best, evs. rewrite <- Hcur. auto 10.
    + left. rewrite (scout_unfold config fuel s s1 cur cp rd) by assumption.
      destruct (evaluation_frame config _ _ _ _ _ Hrd) as (evs & -> & Hevs).
      unfold bind, jump_to_best. rewrite Hmax. unfold ret. cbv beta iota.
      rewrite report_best_returns. cbn [final_state].
      split; [exact I|]. split; [discriminate|].
      eexists (_ :: evs), _.
      split; [unfold logged; cbn; rewrite Hcur; reflexivity|].
      split; [constructor; [reflexivity | now apply quiet_of_info]|].
      right. eauto.
  - left. unfold bind, get_pairs_from in Hrd.
    assert (scout config fuel s = Raised e s1) as ->.
    { unfold scout, bind, get_current_coin, ticker, get_pairs_from.
      rewrite Hcur, Hcp. now rewrite Hrd. }
    destruct (scout_pairs_frame config cp
                (filter (fun p => String.eqb (symbol (from_coin p)) cur)
                        (pair_table s)) s) as (_ & evs & Hf & Hevs).
    rewrite Hrd in Hf. cbn in Hf. subst s1.
    split; [exact I|]. split.
    { intros ? ? [= <- _]. exact (scout_pairs_raises _ _ _ _ _ Hrd). }
    exists evs, (best_ratios s).
    split; [unfold logged; cbn; rewrite Hcur; reflexivity|].
    split; [now apply quiet_of_info | now left].
  - exfalso. unfold bind, get_pairs_from in Hrd.
    destruct (scout_pairs_frame config cp
                (filter (fun p => String.eqb (symbol (from_coin p)) cur)
                        (pair_table s)) s) as (Ht & _).
    rewrite Hrd in Ht. exact Ht.
Qed.

End ScoutTheorems.

(** * Main theorems *)

Section Claims.

Context {W : Type} {manager : BinanceAPIManager W} (config : Config).

(** C3: when the sell leg returns no result, the executor returns at once
    (whatever the fuel, and without a buy order), and the held asset, the
    ratio of every pair and the ledger are what they were. *)
Theorem sell_failure_leaves_state fuel pr (s : State W) :
  (sell_alt (symbol (from_coin pr)) (BRIDGE config) (exchange s)).1 = None ->
  exists s',
    transaction_through_bridge config fuel pr s = Returned tt s'
    /\ current_coin s' = current_coin s
    /\ pair_table s' = pair_table s
    /\ best_ratios s' = best_ratios s
    /\ buys (trace s') = buys (trace s).
Proof.
  intros Hsell.
  destruct (sell_alt (symbol (from_coin pr)) (BRIDGE config) (exchange s))
    as [r w'] eqn:E. cbn in Hsell. subst r.
  rewrite (transaction_sell_failure config fuel pr s w' E).
  eexists. split; [reflexivity|]. cbn. auto.
Qed.

(** C4: when the sell leg succeeds and the buy collaborator succeeds after
    [n] failures, the executor with more than [n] units of fuel ends: it
    has placed [n + 1] buy orders, recorded the destination as held, and
    run the recalibration with the price of the successful buy. *)
Theorem buy_leg_retried_until_success n fuel pr (s : State W) r0 w1 r :
  sell_alt (symbol (from_coin pr)) (BRIDGE config) (exchange s) = (Some r0, w1) ->
  buy_succeeds_after config n (symbol (to_coin pr)) w1 r ->
  (n < fuel)%nat ->
  let dest := symbol (to_coin pr) in
  let bought :=
    mkState (after_buys config (S n) dest w1) (Some dest) (pair_table s)
      (best_ratios s)
      (EvSetCurrent dest
       :: repeat (EvBuy dest (BRIDGE config)) (S n)
       ++ EvSell (symbol (from_coin pr)) (BRIDGE config)
       :: EvTransaction pr :: trace s) in
  let o := transaction_through_bridge config fuel pr s in
  o = update_trade_threshold config (Some (price r)) bought
  /\ terminates o
  /\ current_coin (final_state o) = Some dest
  /\ (~ price r == 0 ->
      exists s', o = Returned tt s'
        /\ pair_table s'
           = map (recalibrated config (exchange bought) (Some dest) (price r))
                 (pair_table s)).
Proof.
  intros Hsell Hbuy Hfuel dest bought o.
  assert (o = update_trade_threshold config (Some (price r)) bought) as Ho.
  { subst o. unfold transaction_through_bridge, bind at 1 2, emit, call_sell_alt.
    cbn [exchange]. rewrite Hsell. unfold bind at 1.
    rewrite (buy_until_success_returns config n dest _ r fuel); [|exact Hbuy|exact Hfuel].
    unfold bind, set_current_coin. reflexivity. }
  split; [exact Ho|]. rewrite Ho.
  destruct (update_trade_threshold_frame config (Some (price r)) bought)
    as (_ & Hc & _ & _ & Ht).
  split; [exact Ht|]. split; [exact Hc|].
  intros Hp.
  destruct (update_trade_threshold_returns config (price r) bought Hp)
    as (evs & E & _).
  rewrite E. eexists. split; reflexivity.
Qed.

(** C7: recalibration for the held asset [c] with a non-zero acquisition
    price [p] returns, and whenever it returns, row by row: a pair into [c]
    whose source has a bridge price [sp] gets the ratio [sp / p]; a pair
    into [c] whose source has no price is unchanged; a pair into another
    asset is unchanged. *)
Theorem recalibration_effect p c (s : State W) :
  current_coin s = Some c ->
  (~ p == 0 -> exists s', update_trade_threshold config (Some p) s = Returned tt s')
  /\ forall s',
      update_trade_threshold config (Some p) s = Returned tt s' ->
      current_coin s' = Some c
      /\ length (pair_table s') = length (pair_table s)
      /\ forall i pr, pair_table s !! i = Some pr ->
          exists pr',
            pair_table s' !! i = Some pr'
            /\ from_coin pr' = from_coin pr
            /\ to_coin pr' = to_coin pr
            /\ (symbol (to_coin pr) = c ->
                forall sp,
                  get_ticker_price (symbol (from_coin pr) +:+ BRIDGE config)
                                   (exchange s) = Some sp ->
                  ratio pr' = Some (sp / p))
            /\ (symbol (to_coin pr) = c ->
                get_ticker_price (symbol (from_coin pr) +:+ BRIDGE config)
                                 (exchange s) = None ->
                pr' = pr)
            /\ (symbol (to_coin pr) <> c -> pr' = pr).
Proof.
  intros Hc. split.
  - intros Hp.
    destruct (update_trade_threshold_returns config p s Hp) as (evs & E & _).
    eauto.
  - intros s' E.
    unfold update_trade_threshold, bind, get_current_coin, query_pairs in E.
    destruct (recalibrate config (current_coin s) p (pair_table s) s)
      as [ps' s1| |] eqn:E1; try discriminate.
    pose proof (recalibrate_result config _ _ _ _ _ _ E1) as ->.
    destruct (recalibrate_frame config (current_coin s) p (pair_table s) s)
      as (_ & evs & Hf & _).
    rewrite E1 in Hf. cbn in Hf. subst s1.
    injection E as <-. cbn [current_coin pair_table logged].
    split; [exact Hc|]. split; [apply length_fmap|].
    intros i pr Hi. exists (recalibrated config (exchange s) (current_coin s) p pr).
    split; [now rewrite list_lookup_fmap, Hi|].
    unfold recalibrated, to_coin_is, coin_add. rewrite Hc.
    destruct (String.eqb (symbol (to_coin pr)) c) eqn:Heq.
    + apply String.eqb_eq in Heq.
      destruct (get_ticker_price (symbol (from_coin pr) +:+ BRIDGE config)
                  (exchange s)) as [fp|]; cbn;
        repeat split; try reflexivity; try congruence.
    + apply String.eqb_neq in Heq. repeat split; congruence.
Qed.

End Claims.

Section Bootstrap.

Context {W : Type} {manager : BinanceAPIManager W} (config : Config).

Lemma supported_elem_of sym :
  supported config sym = true <-> sym ∈ SUPPORTED_COIN_LIST config.
Proof.
  unfold supported. rewrite existsb_exists, list_elem_of_In. split.
  - intros (x & Hin & ->%String.eqb_eq). exact Hin.
  - intros Hin. exists sym. split; [exact Hin | apply String.eqb_refl].
Qed.

(** On first run with no held asset, an empty configured symbol makes the
    bootstrap draw a coin from the supported list, record it as held and
    place one buy order for it against the bridge, whatever the exchange
    answers; a configured supported symbol is recorded as held and no order
    is placed. *)
Theorem bootstrap_choice rnd (s : State W) :
  current_coin s = None ->
  (CURRENT_COIN_SYMBOL config = "" ->
   SUPPORTED_COIN_LIST config <> [] ->
   exists c,
     SUPPORTED_COIN_LIST config
       !! (rnd mod length (SUPPORTED_COIN_LIST config))%nat = Some c
     /\ initialize_current_coin config rnd s
        = Returned tt
            (mkState (buy_alt c (BRIDGE config) (exchange s)).2 (Some c)
               (pair_table s) (best_ratios s)
               ([EvInfo "Ready to start trading";
                 EvBuy c (BRIDGE config);
                 EvInfo ("Purchasing " +:+ c +:+ " to begin trading");
                 EvSetCurrent c;
                 EvInfo ("Setting initial coin to " +:+ c)] ++ trace s)))
  /\ (CURRENT_COIN_SYMBOL config <> "" ->
      CURRENT_COIN_SYMBOL config ∈ SUPPORTED_COIN_LIST config ->
      initialize_current_coin config rnd s
      = Returned tt
          (mkState (exchange s) (Some (CURRENT_COIN_SYMBOL config))
             (pair_table s) (best_ratios s)
             ([EvSetCurrent (CURRENT_COIN_SYMBOL config);
               EvInfo ("Setting initial coin to " +:+ CURRENT_COIN_SYMBOL config)]
              ++ trace s))).
Proof.
  intros Hnone. split.
  - intros Hsym Hne.
    destruct (lookup_lt_is_Some_2 (SUPPORTED_COIN_LIST config)
                (rnd mod length (SUPPORTED_COIN_LIST config))%nat) as [c Hc].
    { apply Nat.mod_upper_bound. now destruct (SUPPORTED_COIN_LIST config). }
    exists c. split; [exact Hc|].
    assert (supported config c = true) as Hsup
      by (apply supported_elem_of; eapply list_elem_of_lookup_2; exact Hc).
    unfold initialize_current_coin, bind at 1, get_current_coin.
    rewrite Hnone, Hsym. cbn [String.eqb].
    unfold bind at 1, random_choice. rewrite Hc.
    unfold ret at 1. unfold bind, logger_info, emit, set_current_coin,
      get_current_coin, call_buy_alt. cbn.
    rewrite Hsup. cbn.
    now destruct (buy_alt c (BRIDGE config) (exchange s)).
  - intros Hsym Hin.
    apply supported_elem_of in Hin.
    apply String.eqb_neq in Hsym.
    unfold initialize_current_coin, bind, get_current_coin, logger_info, emit,
      set_current_coin, ret.
    rewrite Hnone, Hsym. cbn. rewrite Hin. reflexivity.
Qed.

(** C9: on first run, a configured symbol that is not in the supported list
    ends the process with [SystemExit]; at that point the state is the
    initial one with one log line: no held asset is recorded and no order
    is placed. *)
Theorem bootstrap_unsupported_symbol rnd (s : State W) :
  current_coin s = None ->
  CURRENT_COIN_SYMBOL config <> "" ->
  CURRENT_COIN_SYMBOL config ∉ SUPPORTED_COIN_LIST config ->
  initialize_current_coin config rnd s
  = Raised (SystemExit exit_message)
      (logged [EvInfo ("Setting initial coin to " +:+ CURRENT_COIN_SYMBOL config)] s).
Proof.
  intros Hnone Hsym Hnot.
  assert (supported config (CURRENT_COIN_SYMBOL config) = false) as Hsup.
  { destruct (supported config (CURRENT_COIN_SYMBOL config)) eqn:E; [|reflexivity].
    apply supported_elem_of in E. contradiction. }
  apply String.eqb_neq in Hsym.
  unfold initialize_current_coin, bind, get_current_coin, logger_info, emit, ret.
  rewrite Hnone, Hsym. cbn. rewrite Hsup. reflexivity.
Qed.

End Bootstrap.

Section ScoutClaims.

Context {W : Type} {manager : BinanceAPIManager W} (config : Config).

Lemma cons_neq {A} (x : A) (l : list A) : x :: l <> l.
Proof. intros H. apply (f_equal length) in H. cbn in H. lia. Qed.


(** A viable pair without a ratio aborts the evaluation loop: unless a
    division by a zero price aborts it first, the loop raises [TypeError]. *)
Lemma uncalibrated_pair_raises cp ps : forall (s : State W),
  (forall pr op, pr ∈ ps ->
     get_ticker_price (coin_add (to_coin pr) (BRIDGE config)) (exchange s)
       = Some op -> ~ op == 0) ->
  (exists pr, pr ∈ ps /\ viable config (exchange s) pr = true /\ ratio pr = None) ->
  exists s', scout_pairs config cp ps s = Raised TypeError s'.
Proof.
  induction ps as [|pr rest IH]; intros s Hnz (bad & Hin & Hv & Hr).
  - inversion Hin.
  - assert (forall (s0 : State W), exchange s0 = exchange s ->
            bad ∈ rest ->
            exists s', scout_pairs config cp rest s0 = Raised TypeError s') as Hrest.
    { intros s0 He Hin'. apply IH.
      - intros pr' op Hp. rewrite He. apply Hnz. now right.
      - exists bad. rewrite He. auto. }
    cbn [scout_pairs]. unfold viable in Hv.
    apply elem_of_cons in Hin as [->|Hin].
    + apply andb_prop in Hv as [Hen Hp]. rewrite Hen. cbn [negb].
      apply bool_decide_eq_true in Hp as [op Hop].
      unfold bind at 1, ticker. rewrite Hop.
      unfold bind at 1. rewrite py_div_nonzero by (apply (Hnz pr); [left | exact Hop]).
      unfold bind, fee, sub_ratio. rewrite Hr. eauto.
    + destruct (enabled (to_coin pr)); cbn [negb]; [|now apply Hrest].
      unfold bind at 1, ticker.
      destruct (get_ticker_price (coin_add (to_coin pr) (BRIDGE config)) (exchange s))
        as [op|] eqn:Hop.
      * unfold bind at 1. rewrite py_div_nonzero by (apply (Hnz pr); [left | exact Hop]).
        unfold bind at 1 2 3, fee, sub_ratio.
        destruct (ratio pr); [|eauto]. unfold ret at 1. unfold bind.
        destruct (Hrest s eq_refl Hin) as (s' & ->). eauto.
      * unfold bind, logger_info, emit.
        now apply Hrest.
Qed.


(** In a cycle whose evaluation loop completes and yields [rd], the
    executor is entered if and only if some evaluated pair has a positive
    value; it is then entered once, with the first pair of [rd] whose value
    is the largest; and when no value is positive the cycle returns with the
    held asset and the ratios untouched. *)
Theorem jump_iff_profitable fuel (s s1 : State W) cur cp rd :
  current_coin s = Some cur ->
  get_ticker_price (cur +:+ BRIDGE config) (exchange s) = Some cp ->
  (ps <- get_pairs_from cur ;; scout_pairs config cp ps) s = Returned rd s1 ->
  let o := scout config fuel s in
  let entered := transactions (trace (final_state o)) in
  ((exists kv, kv ∈ rd /\ 0 < kv.2) <-> entered <> transactions (trace s))
  /\ ((exists kv, kv ∈ rd /\ 0 < kv.2) ->
      exists best r1 r2,
        rd = r1 ++ best :: r2
        /\ 0 < best.2
        /\ Forall (fun kv => kv.2 < best.2) r1
        /\ Forall (fun kv => kv.2 <= best.2) r2
        /\ entered = best.1 :: transactions (trace s))
  /\ ((forall kv, kv ∈ rd -> ~ 0 < kv.2) ->
      entered = transactions (trace s)
      /\ exists s',
           o = Returned tt s'
           /\ exchange s' = exchange s
           /\ current_coin s' = current_coin s
           /\ pair_table s' = pair_table s).
Proof.
  intros Hcur Hcp Hrd o entered.
  pose proof (scout_transactions config fuel s s1 cur cp rd Hcur Hcp Hrd) as Ht.
  fold o in Ht. fold entered in Ht.
  destruct (py_max (ratio_dict_filtered rd)) as [best|] eqn:Hmax.
  - destruct (py_max_filtered_spec rd best Hmax) as (r1 & r2 & Erd & Hpos & H1 & H2).
    assert (exists kv, kv ∈ rd /\ 0 < kv.2) as Hex.
    { exists best. split; [|exact Hpos]. rewrite Erd.
      apply elem_of_app. right. left. }
    split; [|split].
    + split; [|intros _; exact Hex]. intros _. rewrite Ht. apply cons_neq.
    + intros _. exists best, r1, r2. auto.
    + intros Hall. destruct Hex as (kv & Hin & Hkv). now destruct (Hall kv Hin).
  - pose proof (proj1 (py_max_filtered_none rd) Hmax) as Hall.
    split; [|split].
    + split.
      * intros (kv & Hin & Hkv). now destruct (Hall kv Hin).
      * intros Hne. now destruct Hne.
    + intros (kv & Hin & Hkv). now destruct (Hall kv Hin).
    + intros _. split; [exact Ht|].
      destruct (scout_no_jump config fuel s s1 cur cp rd Hcur Hcp Hrd Hmax)
        as (s' & E & He & Hc & Hp & _).
      exists s'. auto.
Qed.


(** The general half of C6: every entry of [ratio_dict] is the advantage of
    the specification, computed from the held price, the price of the
    destination, the two fees, the multiplier and the pair's ratio. *)
Lemma advantage_of_evaluated (s s1 : State W) cur cp rd :
  (ps <- get_pairs_from cur ;; scout_pairs config cp ps) s = Returned rd s1 ->
  forall pr v, (pr, v) ∈ rd ->
    exists candidate_price calibration_ratio,
      get_ticker_price (symbol (to_coin pr) +:+ BRIDGE config) (exchange s)
        = Some candidate_price
      /\ ratio pr = Some calibration_ratio
      /\ v = (cp / candidate_price
              - (get_fee (symbol (from_coin pr)) (BRIDGE config) true (exchange s)
                 + get_fee (symbol (to_coin pr)) (BRIDGE config) false (exchange s))
                * SCOUT_MULTIPLIER config * (cp / candidate_price))
             - calibration_ratio.
Proof.
  unfold bind, get_pairs_from. intros Hrd pr v Hin.
  destruct (scout_pairs_result config _ _ _ _ _ Hrd) as (_ & Hall).
  rewrite Forall_forall in Hall.
  destruct (Hall _ Hin) as (op & r & Hop & _ & Hr & Hv).
  exists op, r. auto.
Qed.

End ScoutClaims.

(** * Concrete runs *)

(** C6: every entry of [ratio_dict] is
    (raw_ratio - fee * multiplier * raw_ratio) - calibration_ratio with
    raw_ratio = held_price / candidate_price and fee the sum of the fees of
    the two legs.  With held price 100, candidate price 80, fee 0.001 a
    leg, multiplier 5 and calibration ratio 0.2 the value is 1.0375 and the
    executor is entered; with calibration ratio 1.3 it is -0.0625 and the
    executor is not entered. *)
Theorem advantage_formula_and_examples :
  (forall W (manager : BinanceAPIManager W) (config : Config)
          (s s1 : State W) cur cp rd,
     (ps <- get_pairs_from cur ;; scout_pairs config cp ps) s = Returned rd s1 ->
     forall pr v, (pr, v) ∈ rd ->
       exists candidate_price calibration_ratio fee,
         get_ticker_price (symbol (to_coin pr) +:+ BRIDGE config) (exchange s)
           = Some candidate_price
         /\ ratio pr = Some calibration_ratio
         /\ fee = get_fee (symbol (from_coin pr)) (BRIDGE config) true (exchange s)
                  + get_fee (symbol (to_coin pr)) (BRIDGE config) false (exchange s)
         /\ v = spec_advantage cp candidate_price fee (SCOUT_MULTIPLIER config)
                  calibration_ratio)
  /\ (let s := Demo.start Demo.liquid (Some "A") [Demo.ab (Some 0.2)] in
      (exists v s1,
         (ps <- get_pairs_from "A" ;; scout_pairs Demo.config 100 ps) s
           = Returned [(Demo.ab (Some 0.2), v)] s1
         /\ v == 1.0375 /\ 0 < v)
      /\ transactions (trace (final_state (scout Demo.config 1 s)))
         = [Demo.ab (Some 0.2)]
      /\ current_coin (final_state (scout Demo.config 1 s)) = Some "B")
  /\ (let s := Demo.start Demo.liquid (Some "A") [Demo.ab (Some 1.3)] in
      (exists v s1,
         (ps <- get_pairs_from "A" ;; scout_pairs Demo.config 100 ps) s
           = Returned [(Demo.ab (Some 1.3), v)] s1
         /\ v == -0.0625 /\ ~ 0 < v)
      /\ transactions (trace (final_state (scout Demo.config 1 s))) = []
      /\ current_coin (final_state (scout Demo.config 1 s)) = Some "A").
Proof.
  split; [|split].
  - intros W manager config s s1 cur cp rd Hrd pr v Hin.
    destruct (advantage_of_evaluated config s s1 cur cp rd Hrd pr v Hin)
      as (op & r & Hop & Hr & Hv).
    exists op, r. eexists. repeat split; eauto.
  - cbn zeta. split; [|split].
    + eexists. eexists. split; [vm_compute; reflexivity|]. split; reflexivity.
    + vm_compute. reflexivity.
    + vm_compute. reflexivity.
  - cbn zeta. split; [|split].
    + eexists. eexists. split; [vm_compute; reflexivity|].
      split; [reflexivity|]. intros H. vm_compute in H. discriminate.
    + vm_compute. reflexivity.
    + vm_compute. reflexivity.
Qed.

(** C1 on a concrete run.  Calibration leaves the pair A->B uncalibrated
    because B has no price then.  In a later cycle B has a price: [scout]
    raises [TypeError] at that pair, the profitable pair A->C behind it is
    never evaluated and nothing is recorded.  Had the pair been skipped, as
    it is while B has no price, the cycle would have jumped to C. *)
Theorem uncalibrated_pair_aborts_cycle :
  let rows := [Demo.ab None; Demo.ac (Some 1)] in
  (exists s1,
     initialize_trade_thresholds Demo.config
       (Demo.start Demo.b_missing (Some "A") rows) = Returned tt s1
     /\ pair_table s1 = rows)
  /\ (exists s',
        scout Demo.config 1 (Demo.start Demo.liquid (Some "A") rows)
          = Raised TypeError s'
        /\ current_coin s' = Some "A"
        /\ transactions (trace s') = []
        /\ best_ratios s' = ∅)
  /\ (exists s',
        scout Demo.config 1 (Demo.start Demo.b_missing (Some "A") rows)
          = Returned tt s'
        /\ current_coin s' = Some "C"
        /\ transactions (trace s') = [Demo.ac (Some 1)]).
Proof.
  cbn zeta. split; [|split].
  - eexists. split; [vm_compute; reflexivity | reflexivity].
  - eexists. split; [vm_compute; reflexivity|]. repeat split; reflexivity.
  - eexists. split; [vm_compute; reflexivity|]. repeat split; reflexivity.
Qed.

(** C5 on a concrete run.  The cycle jumps from A to B, the transition
    succeeds, and when the cycle completes the ledger holds the two values
    computed before the jump. *)
Theorem ledger_not_empty_after_transition :
  exists s',
    scout Demo.config 1 (Demo.later Demo.liquid (Some "A") Demo.table)
      = Returned tt s'
    /\ current_coin s' = Some "B"
    /\ transactions (trace s') = [Demo.ab (Some 0.2)]
    /\ best_ratios s' <> ∅
    /\ (exists v, best_ratios s' !! ("A", "B") = Some v /\ v == 1.0375)
    /\ (exists v, best_ratios s' !! ("A", "C") = Some v /\ v == 0.98).
Proof.
  eexists. split; [vm_compute; reflexivity|].
  split; [reflexivity|]. split; [reflexivity|]. split; [|split].
  - intros H. apply (f_equal (fun m => m !! ("A", "B"))) in H.
    vm_compute in H. discriminate.
  - eexists. split; [vm_compute; reflexivity | reflexivity].
  - eexists. split; [vm_compute; reflexivity | reflexivity].
Qed.

(** C2 on a concrete run.  The table is the one calibration leaves while B
    has no price.  In a later cycle B has a price: the loop evaluates the
    pair A->C at 0.98, which is positive, and then raises [TypeError] at the
    uncalibrated pair A->B.  The executor is not entered and no order is
    placed, although a candidate with a positive value was evaluated.
    While B has no price, the same table makes the cycle jump to C. *)
Theorem profitable_candidate_lost_on_abort :
  let s := Demo.start Demo.liquid (Some "A") Demo.half_calibrated in
  (exists s1,
     initialize_trade_thresholds Demo.config
       (Demo.start Demo.b_missing (Some "A") Demo.half_calibrated)
       = Returned tt s1
     /\ pair_table s1 = Demo.half_calibrated)
  /\ (exists v s1,
        scout_pairs Demo.config 100 [Demo.ac (Some 1)] s
          = Returned [(Demo.ac (Some 1), v)] s1
        /\ v == 0.98 /\ 0 < v)
  /\ (exists s1,
        (ps <- get_pairs_from "A" ;; scout_pairs Demo.config 100 ps) s
          = Raised TypeError s1)
  /\ (exists s',
        scout Demo.config 1 s = Raised TypeError s'
        /\ current_coin s' = Some "A"
        /\ transactions (trace s') = []
        /\ sells (trace s') = []
        /\ best_ratios s' = ∅)
  /\ (exists s',
        scout Demo.config 1
          (Demo.start Demo.b_missing (Some "A") Demo.half_calibrated)
          = Returned tt s'
        /\ current_coin s' = Some "C"
        /\ transactions (trace s') = [Demo.ac (Some 1)]).
Proof.
  cbn zeta. split; [|split; [|split; [|split]]].
  - eexists. split; [vm_compute; reflexivity | reflexivity].
  - eexists. eexists. split; [vm_compute; reflexivity|]. split; reflexivity.
  - eexists. vm_compute. reflexivity.
  - eexists. split; [vm_compute; reflexivity|]. repeat split; reflexivity.
  - eexists. split; [vm_compute; reflexivity|]. repeat split; reflexivity.
Qed.

(** C8 on a concrete run.  No asset is held and no initial symbol is
    configured; the draw picks B, and the exchange refuses the buy order.
    The bootstrap places that one order, does not look at its answer and
    returns with B recorded as held and the line "Ready to start trading".
    On the same exchange the executor repeats the buy order until it is
    filled. *)
Theorem bootstrap_buy_unchecked :
  let s := Demo.start Demo.calm None Demo.table in
  SUPPORTED_COIN_LIST Demo.config !! (7 mod 3)%nat = Some "B"
  /\ (buy_alt "B" (BRIDGE Demo.config) (exchange s)).1 = None
  /\ (exists s',
        initialize_current_coin Demo.config 7 s = Returned tt s'
        /\ current_coin s' = Some "B"
        /\ trace s' = [EvInfo "Ready to start trading";
                       EvBuy "B" "USDT";
                       EvInfo "Purchasing B to begin trading";
                       EvSetCurrent "B";
                       EvInfo "Setting initial coin to B"]
        /\ exchange s'
           = Demo.mkExchange Demo.market 0.001 [Some (mkOrder 100)]
               [None; Some (mkOrder 80)])
  /\ (exists s',
        transaction_through_bridge Demo.config 3 (Demo.ab (Some 0.2))
          (Demo.start Demo.calm (Some "A") Demo.table) = Returned tt s'
        /\ current_coin s' = Some "B"
        /\ buys (trace s') = [("B", "USDT"); ("B", "USDT"); ("B", "USDT")]
        /\ exchange s' = Demo.mkExchange Demo.market 0.001 [] []).
Proof.
  cbn zeta. split; [|split; [|split]].
  - reflexivity.
  - reflexivity.
  - eexists. split; [vm_compute; reflexivity|]. repeat split; reflexivity.
  - eexists. split; [vm_compute; reflexivity|]. repeat split; reflexivity.
Qed.

(** * Instances of the theorems *)

Lemma sell_failure_leaves_state_witness :
  exists s',
    transaction_through_bridge Demo.config 0 (Demo.ab (Some 0.2))
      (Demo.start Demo.no_sale (Some "A") Demo.table) = Returned tt s'
    /\ current_coin s' = Some "A"
    /\ pair_table s' = Demo.table
    /\ best_ratios s' = ∅
    /\ buys (trace s') = [].
Proof.
  apply (sell_failure_leaves_state Demo.config 0 (Demo.ab (Some 0.2))
           (Demo.start Demo.no_sale (Some "A") Demo.table)).
  reflexivity.
Defined.

Lemma buy_leg_retried_until_success_witness :
  let o := transaction_through_bridge Demo.config 3 (Demo.ab (Some 0.2))
             (Demo.start Demo.calm (Some "A") Demo.table) in
  terminates o /\ current_coin (final_state o) = Some "B".
Proof.
  pose proof (buy_leg_retried_until_success Demo.config 2 3 (Demo.ab (Some 0.2))
                (Demo.start Demo.calm (Some "A") Demo.table)
                (mkOrder 100)
                (Demo.mkExchange Demo.market 0.001 []
                   [None; None; Some (mkOrder 80)])
                (mkOrder 80)) as H.
  destruct H as (_ & Ht & Hc & _).
  - reflexivity.
  - split.
    + intros k Hk.
      destruct k as [|[|k]]; [reflexivity | reflexivity | lia].
    + reflexivity.
  - lia.
  - split; assumption.
Defined.

Lemma recalibration_effect_witness :
  exists s',
    update_trade_threshold Demo.config (Some 80)
      (Demo.start Demo.calm (Some "B") Demo.table) = Returned tt s'.
Proof.
  apply (proj1 (recalibration_effect Demo.config 80 "B"
                  (Demo.start Demo.calm (Some "B") Demo.table) eq_refl)).
  intros H. vm_compute in H. discriminate.
Defined.

Lemma bootstrap_choice_witness :
  (exists c,
     ["A"; "B"; "C"] !! (7 mod 3)%nat = Some c
     /\ current_coin
          (final_state (initialize_current_coin Demo.config 7
                          (Demo.start Demo.calm None Demo.table))) = Some c
     /\ buys (trace (final_state (initialize_current_coin Demo.config 7
                                    (Demo.start Demo.calm None Demo.table))))
        = [(c, "USDT")])
  /\ (let o := initialize_current_coin Demo.configured 7
                 (Demo.start Demo.calm None Demo.table) in
      current_coin (final_state o) = Some "B"
      /\ buys (trace (final_state o)) = []
      /\ exchange (final_state o) = Demo.calm).
Proof.
  split.
  - destruct (proj1 (bootstrap_choice Demo.config 7
                       (Demo.start Demo.calm None Demo.table) eq_refl))
      as (c & Hc & E).
    + reflexivity.
    + discriminate.
    + exists c. rewrite E. repeat split. exact Hc.
  - cbn zeta.
    rewrite (proj2 (bootstrap_choice Demo.configured 7
                      (Demo.start Demo.calm None Demo.table) eq_refl)).
    + repeat split.
    + discriminate.
    + apply list_elem_of_In. cbn. tauto.
Defined.

Lemma bootstrap_unsupported_symbol_witness :
  initialize_current_coin Demo.misconfigured 7
    (Demo.start Demo.calm None Demo.table)
  = Raised (SystemExit exit_message)
      (mkState Demo.calm None Demo.table ∅
         [EvInfo "Setting initial coin to XYZ"]).
Proof.
  apply (bootstrap_unsupported_symbol Demo.misconfigured 7
           (Demo.start Demo.calm None Demo.table)).
  - reflexivity.
  - discriminate.
  - intros H. apply list_elem_of_In in H. cbn in H. intuition discriminate.
Defined.

Lemma jump_iff_profitable_witness :
  exists best r1 r2,
    [(Demo.ab (Some 0.2), spec_advantage 100 80 (0.001 + 0.001) 5 0.2);
     (Demo.ac (Some 1), spec_advantage 100 50 (0.001 + 0.001) 5 1)]
      = r1 ++ best :: r2
    /\ 0 < best.2
    /\ Forall (fun kv => kv.2 < best.2) r1
    /\ Forall (fun kv => kv.2 <= best.2) r2
    /\ transactions
         (trace (final_state (scout Demo.config 3
                                (Demo.start Demo.calm (Some "A") Demo.table))))
       = [best.1].
Proof.
  refine (proj1 (proj2 (jump_iff_profitable Demo.config 3
                          (Demo.start Demo.calm (Some "A") Demo.table)
                          _ "A" 100 _ eq_refl eq_refl _)) _).
  - vm_compute. reflexivity.
  - eexists. split; [left | reflexivity].
Defined.


Lemma advantage_formula_and_examples_witness :
  exists candidate_price calibration_ratio fee,
    Demo.lookup_price "BUSDT" Demo.market = Some candidate_price
    /\ Some 0.2 = Some calibration_ratio
    /\ fee = 0.001 + 0.001
    /\ spec_advantage 100 80 (0.001 + 0.001) 5 0.2
       = spec_advantage 100 candidate_price fee 5 calibration_ratio.
Proof.
  refine (proj1 advantage_formula_and_examples Demo.Exchange Demo.manager
            Demo.config (Demo.start Demo.liquid (Some "A") [Demo.ab (Some 0.2)])
            _ "A" 100 _ _ (Demo.ab (Some 0.2))
            (spec_advantage 100 80 (0.001 + 0.001) 5 0.2) _).
  - vm_compute. reflexivity.
  - left.
Defined.

(** * Further properties *)

(** ** initialize_trade_thresholds *)

Section Calibration.

Context {W : Type} {manager : BinanceAPIManager W} (config : Config).

Lemma calibrate_frame ps (s : State W) :
  ends_logged (calibrate config ps s) s.
Proof.
  revert s. induction ps as [|pr rest IH]; intros s.
  - apply ends_logged_ret.
  - cbn [calibrate]. destruct (ratio pr).
    { apply ends_logged_bind; [apply IH|]. intros; apply ends_logged_ret. }
    destruct (negb (enabled (from_coin pr)) || negb (enabled (to_coin pr))).
    { apply ends_logged_bind; [apply IH|]. intros; apply ends_logged_ret. }
    apply ends_logged_bind; [apply ends_logged_info|]. intros _ s1 _.
    apply ends_logged_bind; [apply ends_logged_ticker|]. intros [fp|] s2 _.
    + apply ends_logged_bind; [apply ends_logged_ticker|]. intros [tp|] s3 _.
      * apply ends_logged_bind; [apply ends_logged_py_div|]. intros r s4 _.
        apply ends_logged_bind; [apply IH|]. intros; apply ends_logged_ret.
      * apply ends_logged_bind; [apply ends_logged_info|]. intros _ s4 _.
        apply ends_logged_bind; [apply IH|]. intros; apply ends_logged_ret.
    + apply ends_logged_bind; [apply ends_logged_info|]. intros _ s3 _.
      apply ends_logged_bind; [apply IH|]. intros; apply ends_logged_ret.
Qed.

(** The only exception [calibrate] raises is [ZeroDivisionError]. *)
Lemma calibrate_raises ps : forall (s s' : State W) e,
  calibrate config ps s = Raised e s' -> e = ZeroDivisionError.
Proof.
  induction ps as [|pr rest IH]; intros s s' e E; [discriminate|].
  cbn [calibrate] in E.
  assert (forall (s0 : State W) (f : list Pair -> M W (list Pair)),
            (forall l s1, exists l1, f l s1 = Returned l1 s1) ->
            bind (calibrate config rest) f s0 = Raised e s' ->
            e = ZeroDivisionError) as Hrest.
  { intros s0 f Hf Hb. unfold bind in Hb.
    destruct (calibrate config rest s0) as [l s1| |] eqn:E1; try discriminate.
    - destruct (Hf l s1) as (l1 & Hl). rewrite Hl in Hb. discriminate.
    - injection Hb as -> _. exact (IH _ _ _ E1). }
  assert (forall p l (s1 : State W),
            exists l1, (ret (p :: l) : M W (list Pair)) s1 = Returned l1 s1)
    as Hret by (intros; eexists; reflexivity).
  destruct (ratio pr); [exact (Hrest _ _ (Hret pr) E)|].
  destruct (negb (enabled (from_coin pr)) || negb (enabled (to_coin pr)));
    [exact (Hrest _ _ (Hret pr) E)|].
  unfold bind at 1, logger_info, emit in E. unfold bind at 1, ticker in E.
  cbn [exchange] in E.
  destruct (get_ticker_price (coin_add (from_coin pr) (BRIDGE config)) (exchange s)).
  - unfold bind at 1 in E. cbn [exchange] in E.
    destruct (get_ticker_price (coin_add (to_coin pr) (BRIDGE config)) (exchange s)).
    + unfold bind at 1, py_div in E.
      destruct (Qeq_bool q0 0).
      * now injection E as <- _.
      * exact (Hrest _ _ (Hret _) E).
    + unfold bind at 1 in E. exact (Hrest _ _ (Hret pr) E).
  - unfold bind at 1 in E. exact (Hrest _ _ (Hret pr) E).
Qed.

Lemma calibrate_result ps : forall (s s' : State W) ps',
  calibrate config ps s = Returned ps' s' ->
  ps' = map (initialized config (exchange s)) ps
  /\ forall pr tp, pr ∈ ps -> calibrates config (exchange s) pr = true ->
       get_ticker_price (coin_add (to_coin pr) (BRIDGE config)) (exchange s)
         = Some tp -> ~ tp == 0.
Proof.
  induction ps as [|pr rest IH]; intros s s' ps' E.
  - injection E as <- _. split; [reflexivity|]. intros ? ? H. inversion H.
  - cbn [calibrate map] in E.
    assert (forall (s0 : State W) p,
              exchange s0 = exchange s ->
              p = initialized config (exchange s) pr ->
              (calibrates config (exchange s) pr = true ->
               forall tp, get_ticker_price (coin_add (to_coin pr) (BRIDGE config))
                            (exchange s) = Some tp -> ~ tp == 0) ->
              bind (calibrate config rest) (fun rest' => ret (p :: rest')) s0
                = Returned ps' s' ->
              ps' = map (initialized config (exchange s)) (pr :: rest)
              /\ forall pr0 tp, pr0 ∈ pr :: rest ->
                   calibrates config (exchange s) pr0 = true ->
                   get_ticker_price (coin_add (to_coin pr0) (BRIDGE config))
                     (exchange s) = Some tp -> ~ tp == 0) as Hrest.
    { intros s0 p He -> Hhead Hb. unfold bind, ret in Hb.
      destruct (calibrate config rest s0) as [l s1| |] eqn:E1; try discriminate.
      injection Hb as <- _. destruct (IH _ _ _ E1) as (-> & Hnz).
      rewrite He in *. split; [reflexivity|].
      intros pr0 tp [->|Hin]%elem_of_cons;
        [intros Hc; exact (Hhead Hc tp) | now apply Hnz]. }
    unfold initialized in Hrest. unfold calibrates in Hrest.
    destruct (ratio pr) as [r|] eqn:Hr.
    { apply (Hrest s pr eq_refl eq_refl); [|exact E].
      rewrite bool_decide_eq_false_2 by discriminate. discriminate. }
    destruct (enabled (from_coin pr)), (enabled (to_coin pr));
      cbn [negb orb] in E; cbn [negb orb andb] in Hrest;
      try (apply (Hrest s pr eq_refl eq_refl);
           [rewrite ?andb_false_r; discriminate | exact E]).
    unfold bind at 1, logger_info, emit in E. unfold bind at 1, ticker in E.
    cbn [exchange] in E.
    destruct (get_ticker_price (coin_add (from_coin pr) (BRIDGE config)) (exchange s))
      as [fp|].
    + unfold bind at 1 in E. cbn [exchange] in E.
      destruct (get_ticker_price (coin_add (to_coin pr) (BRIDGE config)) (exchange s))
        as [tp|].
      * unfold bind at 1, py_div in E.
        destruct (Qeq_bool tp 0) eqn:Hz; [discriminate|].
        apply Qeq_bool_neq in Hz.
        eapply Hrest; [| |intros _ ? [= <-]; exact Hz|exact E]; reflexivity.
      * unfold bind at 1 in E.
        eapply Hrest; [| |intros _ ? [=]|exact E]; reflexivity.
    + unfold bind at 1 in E.
      eapply Hrest; [| | |exact E]; try reflexivity.
      rewrite ?andb_false_r. discriminate.
Qed.

Lemma calibrate_returns ps : forall (s : State W),
  (forall pr tp, pr ∈ ps -> calibrates config (exchange s) pr = true ->
     get_ticker_price (coin_add (to_coin pr) (BRIDGE config)) (exchange s)
       = Some tp -> ~ tp == 0) ->
  exists ps' s', calibrate config ps s = Returned ps' s'.
Proof.
  intros s Hnz.
  destruct (calibrate config ps s) as [ps' s'|e s'|s'] eqn:E; [eauto| |].
  2:{ destruct (calibrate_frame ps s) as (Ht & _). rewrite E in Ht. destruct Ht. }
  exfalso. revert s Hnz s' e E.
  induction ps as [|pr rest IH]; intros s Hnz s' e E; [discriminate|].
  cbn [calibrate] in E.
  assert (forall (s0 : State W) (f : list Pair -> M W (list Pair)),
            bind (calibrate config rest) f s0 = Raised e s' ->
            exchange s0 = exchange s ->
            (forall l s1, exists l1, f l s1 = Returned l1 s1) ->
            False) as Hrest.
  { intros s0 f Hb He Hf. unfold bind in Hb.
    destruct (calibrate config rest s0) as [l s1| |] eqn:E1; try discriminate.
    - destruct (Hf l s1) as (l1 & Hl). rewrite Hl in Hb. discriminate.
    - refine (IH s0 _ _ _ E1). intros pr0 tp Hin. rewrite He.
      apply Hnz. now right. }
  assert (forall p l (s1 : State W),
            exists l1, (ret (p :: l) : M W (list Pair)) s1 = Returned l1 s1)
    as Hret by (intros; eexists; reflexivity).
  specialize (Hnz pr). unfold calibrates in Hnz.
  destruct (ratio pr) eqn:Hr; [(apply (Hrest _ _ E); [reflexivity | apply Hret])|].
  destruct (enabled (from_coin pr)), (enabled (to_coin pr)); cbn [negb orb] in E;
    try (apply (Hrest _ _ E); [reflexivity | apply Hret]).
  unfold bind at 1, logger_info, emit in E. unfold bind at 1, ticker in E.
  cbn [exchange] in E.
  destruct (get_ticker_price (coin_add (from_coin pr) (BRIDGE config)) (exchange s))
    as [fp|].
  - unfold bind at 1 in E. cbn [exchange] in E.
    destruct (get_ticker_price (coin_add (to_coin pr) (BRIDGE config)) (exchange s))
      as [tp|].
    + unfold bind at 1, py_div in E.
      destruct (Qeq_bool tp 0) eqn:Hz.
      * apply Qeq_bool_iff in Hz. apply (Hnz tp); [left|reflexivity|reflexivity|exact Hz].
      * (apply (Hrest _ _ E); [reflexivity | apply Hret]).
    + unfold bind at 1 in E. (apply (Hrest _ _ E); [reflexivity | apply Hret]).
  - unfold bind at 1 in E. (apply (Hrest _ _ E); [reflexivity | apply Hret]).
Qed.

End Calibration.

Section CalibrationTheorems.

Context {W : Type} {manager : BinanceAPIManager W} (config : Config).

Lemma initialized_fixed (w : W) pr :
  calibrates config w pr = false -> initialized config w pr = pr.
Proof.
  unfold calibrates, initialized. intros H.
  destruct (ratio pr); [reflexivity|].
  destruct (enabled (from_coin pr)), (enabled (to_coin pr)); try reflexivity.
  destruct (get_ticker_price (coin_add (from_coin pr) (BRIDGE config)) w);
    [|reflexivity].
  destruct (get_ticker_price (coin_add (to_coin pr) (BRIDGE config)) w);
    [|reflexivity].
  discriminate H.
Qed.

Lemma calibrates_initialized (w : W) pr :
  calibrates config w (initialized config w pr) = false.
Proof.
  unfold initialized.
  destruct (ratio pr) eqn:Hr.
  { unfold calibrates. rewrite Hr. reflexivity. }
  destruct (enabled (from_coin pr)) eqn:Hf, (enabled (to_coin pr)) eqn:Ht;
    cbn [negb orb];
    try (unfold calibrates; rewrite Hf, Ht, ?andb_false_r; reflexivity).
  destruct (get_ticker_price (coin_add (from_coin pr) (BRIDGE config)) w) eqn:Hp.
  2:{ unfold calibrates. rewrite Hp, ?andb_false_r. reflexivity. }
  destruct (get_ticker_price (coin_add (to_coin pr) (BRIDGE config)) w) eqn:Hq.
  2:{ unfold calibrates. rewrite Hq, ?andb_false_r. reflexivity. }
  reflexivity.
Qed.

Lemma initialize_returned (s s' : State W) :
  initialize_trade_thresholds config s = Returned tt s' ->
  exists evs,
    s' = mkState (exchange s) (current_coin s)
           (map (initialized config (exchange s)) (pair_table s))
           (best_ratios s) (evs ++ trace s)
    /\ Forall (fun e => is_info e = true) evs
    /\ forall pr tp, pr ∈ pair_table s ->
         calibrates config (exchange s) pr = true ->
         get_ticker_price (coin_add (to_coin pr) (BRIDGE config)) (exchange s)
           = Some tp -> ~ tp == 0.
Proof.
  unfold initialize_trade_thresholds, bind, query_pairs, commit_pairs. intros E.
  destruct (calibrate config (pair_table s) s) as [ps' s1| |] eqn:E1;
    try discriminate.
  destruct (calibrate_result config _ _ _ _ E1) as (-> & Hnz).
  destruct (calibrate_frame config (pair_table s) s) as (_ & evs & Hf & Hevs).
  rewrite E1 in Hf. cbn in Hf. subst s1. injection E as <-.
  exists evs. auto.
Qed.

(** X1: when [initialize_trade_thresholds] returns, the table has the same
    rows; a row that had a ratio, a row with a disabled coin and a row with
    a missing price are unchanged; an unset row between two enabled, priced
    coins gets the ratio of the two prices. *)
Theorem calibration_effect (s s' : State W) :
  initialize_trade_thresholds config s = Returned tt s' ->
  length (pair_table s') = length (pair_table s)
  /\ forall i pr, pair_table s !! i = Some pr ->
       let from_price :=
         get_ticker_price (symbol (from_coin pr) +:+ BRIDGE config) (exchange s) in
       let to_price :=
         get_ticker_price (symbol (to_coin pr) +:+ BRIDGE config) (exchange s) in
       exists pr',
         pair_table s' !! i = Some pr'
         /\ from_coin pr' = from_coin pr
         /\ to_coin pr' = to_coin pr
         /\ (is_Some (ratio pr) -> pr' = pr)
         /\ (enabled (from_coin pr) = false \/ enabled (to_coin pr) = false ->
             pr' = pr)
         /\ (from_price = None \/ to_price = None -> pr' = pr)
         /\ (ratio pr = None ->
             enabled (from_coin pr) = true -> enabled (to_coin pr) = true ->
             forall fp tp, from_price = Some fp -> to_price = Some tp ->
               ratio pr' = Some (fp / tp)).
Proof.
  intros E. destruct (initialize_returned s s' E) as (evs & -> & _ & _).
  cbn [pair_table exchange]. split; [apply length_fmap|].
  intros i pr Hi.
  exists (initialized config (exchange s) pr).
  split; [now rewrite list_lookup_fmap, Hi|].
  unfold initialized, coin_add.
  destruct (ratio pr) as [r|] eqn:Hr.
  { repeat split; try reflexivity. discriminate. }
  destruct (enabled (from_coin pr)), (enabled (to_coin pr)); cbn [negb orb];
    try (repeat split; try reflexivity; intros; discriminate).
  destruct (get_ticker_price (symbol (from_coin pr) +:+ BRIDGE config) (exchange s));
    [|repeat split; try reflexivity; intros; discriminate].
  destruct (get_ticker_price (symbol (to_coin pr) +:+ BRIDGE config) (exchange s));
    [|repeat split; try reflexivity; intros; discriminate].
  repeat split; cbn; try reflexivity.
  - intros []; discriminate.
  - intros [|]; discriminate.
  - intros [|]; discriminate.
  - intros _ _ _ fp tp [= <-] [= <-]. reflexivity.
Qed.

(** X2: whatever its outcome, [initialize_trade_thresholds] ends, leaves
    the exchange, the held coin and the ledger as they were, and adds
    nothing but log lines to the trace: it places no order. *)
Theorem calibration_frame (s : State W) :
  let o := initialize_trade_thresholds config s in
  terminates o
  /\ exchange (final_state o) = exchange s
  /\ current_coin (final_state o) = current_coin s
  /\ best_ratios (final_state o) = best_ratios s
  /\ exists evs,
       trace (final_state o) = evs ++ trace s
       /\ Forall (fun e => is_info e = true) evs.
Proof.
  unfold initialize_trade_thresholds, bind, query_pairs, commit_pairs.
  destruct (calibrate_frame config (pair_table s) s) as (Ht & evs & Hf & Hevs).
  destruct (calibrate config (pair_table s) s) as [ps' s1|e s1|s1];
    cbn in *; try contradiction; subst s1; cbn; repeat split; eauto.
Qed.

(** X3: [initialize_trade_thresholds] fails in one way only: with
    [ZeroDivisionError].  It returns whenever no row it would calibrate has
    a zero destination price. *)
Theorem calibration_failure (s : State W) :
  (forall e s', initialize_trade_thresholds config s = Raised e s' ->
                e = ZeroDivisionError)
  /\ ((forall pr tp, pr ∈ pair_table s ->
         calibrates config (exchange s) pr = true ->
         get_ticker_price (coin_add (to_coin pr) (BRIDGE config)) (exchange s)
           = Some tp -> ~ tp == 0) ->
      exists s', initialize_trade_thresholds config s = Returned tt s').
Proof.
  unfold initialize_trade_thresholds, bind, query_pairs, commit_pairs. split.
  - intros e s' E.
    destruct (calibrate config (pair_table s) s) as [ps' s1| |] eqn:E1;
      try discriminate.
    injection E as -> _. exact (calibrate_raises config _ _ _ _ E1).
  - intros Hnz.
    destruct (calibrate_returns config (pair_table s) s Hnz) as (ps' & s1 & ->).
    eauto.
Qed.

(** X4: calibrating twice is calibrating once: after a run that returned,
    a second run on the same exchange returns and leaves the table as the
    first run made it. *)
Theorem calibration_idempotent (s s1 : State W) :
  initialize_trade_thresholds config s = Returned tt s1 ->
  exists s2,
    initialize_trade_thresholds config s1 = Returned tt s2
    /\ pair_table s2 = pair_table s1.
Proof.
  intros E. destruct (initialize_returned s s1 E) as (evs & -> & _ & _).
  match goal with
  | |- context [initialize_trade_thresholds config ?st] =>
      destruct (calibrate_returns config (pair_table st) st) as (ps' & s2 & E2)
  end.
  { cbn [pair_table exchange]. intros pr tp Hin Hc.
    apply list_elem_of_fmap in Hin as (p0 & -> & _).
    now rewrite calibrates_initialized in Hc. }
  unfold initialize_trade_thresholds, bind, query_pairs, commit_pairs.
  cbn [pair_table] in *. rewrite E2.
  destruct (calibrate_result config _ _ _ _ E2) as (-> & _).
  eexists. split; [reflexivity|]. cbn [pair_table exchange].
  rewrite <- list_fmap_compose. apply list_fmap_ext.
  intros i p _. cbn. apply initialized_fixed, calibrates_initialized.
Qed.

End CalibrationTheorems.

(** ** update_trade_threshold *)

Section RecalibrationTheorems.

Context {W : Type} {manager : BinanceAPIManager W} (config : Config).

Lemma recalibrate_raises cur p ps : forall (s s' : State W) e,
  recalibrate config cur p ps s = Raised e s' ->
  e = ZeroDivisionError /\ p == 0
  /\ exists pr, pr ∈ ps /\ recalibrates config (exchange s) cur pr = true.
Proof.
  induction ps as [|pr rest IH]; intros s s' e E; [discriminate|].
  cbn [recalibrate] in E.
  assert (forall (s0 : State W) (f : list Pair -> M W (list Pair)),
            bind (recalibrate config cur p rest) f s0 = Raised e s' ->
            exchange s0 = exchange s ->
            (forall l s1, exists l1, f l s1 = Returned l1 s1) ->
            e = ZeroDivisionError /\ p == 0
            /\ exists pr0, pr0 ∈ pr :: rest
                 /\ recalibrates config (exchange s) cur pr0 = true) as Hrest.
  { intros s0 f Hb He Hf. unfold bind in Hb.
    destruct (recalibrate config cur p rest s0) as [l s1| |] eqn:E1;
      try discriminate.
    - destruct (Hf l s1) as (l1 & Hl). rewrite Hl in Hb. discriminate.
    - injection Hb as -> _.
      destruct (IH _ _ _ E1) as (-> & Hp & pr0 & Hin & Hr).
      rewrite He in Hr. repeat split; auto. exists pr0. split; [now right|auto]. }
  assert (forall p0 l (s1 : State W),
            exists l1, (ret (p0 :: l) : M W (list Pair)) s1 = Returned l1 s1)
    as Hret by (intros; eexists; reflexivity).
  unfold recalibrates in *.
  destruct (to_coin_is cur pr) eqn:Hto.
  2:{ apply (Hrest _ _ E); [reflexivity | apply Hret]. }
  unfold bind at 1, ticker in E.
  destruct (get_ticker_price (coin_add (from_coin pr) (BRIDGE config)) (exchange s))
    as [fp|] eqn:Hfp.
  - unfold bind at 1, py_div in E.
    destruct (Qeq_bool p 0) eqn:Hz.
    + injection E as <- _. apply Qeq_bool_iff in Hz. repeat split; auto.
      exists pr. split; [left|]. now rewrite Hto, Hfp.
    + apply (Hrest _ _ E); [reflexivity | apply Hret].
  - unfold bind at 1, logger_info, emit in E.
    apply (Hrest _ _ E); [reflexivity | apply Hret].
Qed.

Lemma recalibrate_zero cur p ps : forall (s : State W),
  p == 0 ->
  (exists pr, pr ∈ ps /\ recalibrates config (exchange s) cur pr = true) ->
  exists s', recalibrate config cur p ps s = Raised ZeroDivisionError s'.
Proof.
  intros s Hp. revert s.
  induction ps as [|pr rest IH]; intros s (bad & Hin & Hbad); [inversion Hin|].
  cbn [recalibrate]. unfold recalibrates in *.
  assert (forall (s0 : State W) (f : list Pair -> M W (list Pair)),
            exchange s0 = exchange s -> bad ∈ rest ->
            exists s', bind (recalibrate config cur p rest) f s0
                       = Raised ZeroDivisionError s') as Hrest.
  { intros s0 f He Hin'. unfold bind.
    destruct (IH s0) as (s' & ->); [|eauto].
    exists bad. now rewrite He. }
  apply elem_of_cons in Hin as [->|Hin].
  - apply andb_prop in Hbad as [Hto Hpr]. rewrite Hto.
    apply bool_decide_eq_true in Hpr as [fp Hfp].
    unfold bind at 1, ticker. rewrite Hfp.
    unfold bind. rewrite (py_div_zero _ _ _ Hp). eauto.
  - destruct (to_coin_is cur pr); [|now apply Hrest].
    unfold bind at 1, ticker.
    destruct (get_ticker_price (coin_add (from_coin pr) (BRIDGE config)) (exchange s)).
    + unfold bind. rewrite (py_div_zero _ _ _ Hp). eauto.
    + unfold bind at 1, logger_info, emit. now apply Hrest.
Qed.

Lemma recalibrated_fixed (w : W) cur p pr :
  recalibrates config w cur pr = false -> recalibrated config w cur p pr = pr.
Proof.
  unfold recalibrates, recalibrated.
  destruct (to_coin_is cur pr); [|reflexivity].
  now destruct (get_ticker_price (coin_add (from_coin pr) (BRIDGE config)) w).
Qed.

Lemma recalibrated_idem (w : W) cur p pr :
  recalibrated config w cur p (recalibrated config w cur p pr)
  = recalibrated config w cur p pr.
Proof.
  destruct (recalibrates config w cur pr) eqn:Hr.
  - unfold recalibrates in Hr. apply andb_prop in Hr as [Hto Hp].
    apply bool_decide_eq_true in Hp as [fp Hfp].
    assert (recalibrated config w cur p pr = set_ratio pr (fp / p)) as ->
      by (unfold recalibrated; now rewrite Hto, Hfp).
    unfold recalibrated.
    assert (to_coin_is cur (set_ratio pr (fp / p)) = true) as ->
      by (destruct cur; exact Hto).
    cbn [set_ratio from_coin]. now rewrite Hfp.
  - now rewrite !(recalibrated_fixed w cur p pr Hr).
Qed.

Lemma recalibrates_recalibrated (w : W) cur p pr :
  recalibrates config w cur (recalibrated config w cur p pr)
  = recalibrates config w cur pr.
Proof.
  unfold recalibrated.
  destruct (to_coin_is cur pr) eqn:Hto; [|reflexivity].
  destruct (get_ticker_price (coin_add (from_coin pr) (BRIDGE config)) w)
    eqn:Hfp; [|reflexivity].
  unfold recalibrates. cbn [set_ratio from_coin].
  assert (to_coin_is cur (set_ratio pr (q / p)) = to_coin_is cur pr) as ->
    by now destruct cur.
  reflexivity.
Qed.

Lemma update_returned p (s s' : State W) :
  update_trade_threshold config (Some p) s = Returned tt s' ->
  exists evs,
    s' = mkState (exchange s) (current_coin s)
           (map (recalibrated config (exchange s) (current_coin s) p) (pair_table s))
           (best_ratios s) (evs ++ trace s)
    /\ Forall (fun e => is_info e = true) evs
    /\ (p == 0 -> forall pr, pr ∈ pair_table s ->
          recalibrates config (exchange s) (current_coin s) pr = false).
Proof.
  unfold update_trade_threshold, bind, get_current_coin, query_pairs, commit_pairs.
  intros E.
  destruct (recalibrate config (current_coin s) p (pair_table s) s)
    as [ps' s1| |] eqn:E1; try discriminate.
  pose proof (recalibrate_result config _ _ _ _ _ _ E1) as ->.
  destruct (recalibrate_frame config (current_coin s) p (pair_table s) s)
    as (_ & evs & Hf & Hevs).
  rewrite E1 in Hf. cbn in Hf. subst s1. injection E as <-.
  exists evs. repeat split; auto.
  intros Hp pr Hin.
  destruct (recalibrates config (exchange s) (current_coin s) pr) eqn:Hr;
    [|reflexivity].
  destruct (recalibrate_zero (current_coin s) p (pair_table s) s Hp) as (s' & E');
    [eauto|]. rewrite E' in E1. discriminate.
Qed.

(** X5: with a zero price, [update_trade_threshold] raises
    [ZeroDivisionError] as soon as one pair into the held coin has a source
    price; when no such pair exists it returns and the table is unchanged.
    With a non-zero price it never raises. *)
Theorem recalibration_zero_price p (s : State W) :
  (forall e s', update_trade_threshold config (Some p) s = Raised e s' ->
     e = ZeroDivisionError /\ p == 0
     /\ exists pr, pr ∈ pair_table s
          /\ recalibrates config (exchange s) (current_coin s) pr = true)
  /\ (p == 0 ->
      (exists pr, pr ∈ pair_table s
         /\ recalibrates config (exchange s) (current_coin s) pr = true) ->
      exists s',
        update_trade_threshold config (Some p) s = Raised ZeroDivisionError s')
  /\ (p == 0 ->
      (forall pr, pr ∈ pair_table s ->
         recalibrates config (exchange s) (current_coin s) pr = false) ->
      exists s',
        update_trade_threshold config (Some p) s = Returned tt s'
        /\ pair_table s' = pair_table s).
Proof.
  split; [|split].
  - unfold update_trade_threshold, bind, get_current_coin, query_pairs, commit_pairs.
    intros e s' E.
    destruct (recalibrate config (current_coin s) p (pair_table s) s)
      as [ps' s1| |] eqn:E1; try discriminate.
    injection E as -> _. exact (recalibrate_raises _ _ _ _ _ _ E1).
  - intros Hp Hex.
    destruct (recalibrate_zero (current_coin s) p (pair_table s) s Hp Hex)
      as (s' & E).
    unfold update_trade_threshold, bind, get_current_coin, query_pairs.
    rewrite E. eauto.
  - intros Hp Hall.
    destruct (update_trade_threshold config (Some p) s) as [[] s'|e s'|s'] eqn:E.
    + exists s'. split; [reflexivity|].
      destruct (update_returned p s s' E) as (evs & -> & _ & _). cbn [pair_table].
      rewrite <- (list_fmap_id (pair_table s)) at 2. apply list_fmap_ext.
      intros i pr Hi. apply recalibrated_fixed, Hall.
      eapply list_elem_of_lookup_2. exact Hi.
    + exfalso.
      unfold update_trade_threshold, bind, get_current_coin, query_pairs,
        commit_pairs in E.
      destruct (recalibrate config (current_coin s) p (pair_table s) s)
        as [ps' s1| |] eqn:E1; try discriminate.
      destruct (recalibrate_raises _ _ _ _ _ _ E1) as (_ & _ & pr & Hin & Hr).
      rewrite (Hall pr Hin) in Hr. discriminate.
    + exfalso.
      destruct (update_trade_threshold_frame config (Some p) s)
        as (_ & _ & _ & _ & Ht).
      rewrite E in Ht. exact Ht.
Qed.

(** X6: recalibrating twice at the same price is recalibrating once: after
    a run that returned, a second run on the same exchange returns with the
    same table. *)
Theorem recalibration_idempotent p (s s1 : State W) :
  update_trade_threshold config (Some p) s = Returned tt s1 ->
  exists s2,
    update_trade_threshold config (Some p) s1 = Returned tt s2
    /\ pair_table s2 = pair_table s1.
Proof.
  intros E. destruct (update_returned p s s1 E) as (evs & -> & _ & Hz).
  match goal with
  | |- context [update_trade_threshold config _ ?st] =>
      destruct (update_trade_threshold config (Some p) st) as [[] s2|e s2|s2] eqn:E2
  end.
  - exists s2. split; [reflexivity|].
    destruct (update_returned p _ s2 E2) as (evs2 & -> & _ & _).
    cbn [pair_table exchange current_coin].
    rewrite <- list_fmap_compose. apply list_fmap_ext.
    intros i pr _. cbn. apply recalibrated_idem.
  - exfalso.
    unfold update_trade_threshold, bind, get_current_coin, query_pairs,
      commit_pairs in E2. cbn [pair_table current_coin] in E2.
    match type of E2 with
    | context [recalibrate config ?c p ?l ?st] =>
        destruct (recalibrate config c p l st) as [ps' s3| |] eqn:E3
    end; try discriminate.
    destruct (recalibrate_raises _ _ _ _ _ _ E3) as (_ & Hp & pr & Hin & Hr).
    cbn [exchange] in Hr.
    apply list_elem_of_fmap in Hin as (p0 & -> & Hin0).
    rewrite recalibrates_recalibrated, (Hz Hp p0 Hin0) in Hr. discriminate.
  - exfalso.
    match type of E2 with
    | update_trade_threshold config _ ?st = _ =>
        destruct (update_trade_threshold_frame config (Some p) st)
          as (_ & _ & _ & _ & Ht)
    end.
    rewrite E2 in Ht. exact Ht.
Qed.

End RecalibrationTheorems.

(** ** transaction_through_bridge *)

Lemma sells_info (evs tr : list Event) :
  Forall (fun e => is_info e = true) evs ->
  sells (evs ++ tr) = sells tr.
Proof.
  induction 1 as [|e evs He _ IH]; [reflexivity|].
  destruct e; try discriminate. exact IH.
Qed.

Lemma same_pairs_refl ps : same_pairs ps ps.
Proof. apply Forall2_same_length_lookup_2; [reflexivity|]. intros i p p' H1 H2.
  rewrite H1 in H2. injection H2 as <-. auto. Qed.

Section TransitionTheorems.

Context {W : Type} {manager : BinanceAPIManager W} (config : Config).

Lemma same_pairs_recalibrated (w : W) cur p ps :
  same_pairs ps (map (recalibrated config w cur p) ps).
Proof.
  induction ps as [|pr rest IH]; [constructor|].
  cbn [map]. constructor; [|exact IH].
  unfold recalibrated. destruct (to_coin_is cur pr); [|auto].
  destruct (get_ticker_price _ w); [|auto].
  cbn. repeat split; eauto.
Qed.

Lemma buy_until_success_quiet fuel : forall coin (s : State W),
  let o := buy_until_success config fuel coin s in
  (forall e s', o <> Raised e s')
  /\ sells (trace (final_state o)) = sells (trace s).
Proof.
  induction fuel as [|fuel IH]; intros coin s; cbn [buy_until_success].
  - cbn. split; [discriminate | reflexivity].
  - cbn zeta. unfold bind, call_buy_alt.
    destruct (buy_alt coin (BRIDGE config) (exchange s)) as [[r|] w].
    + cbn. split; [discriminate | reflexivity].
    + match goal with
      | |- context [buy_until_success _ _ _ ?s1] =>
          destruct (IH coin s1) as (H1 & H2)
      end.
      split; [exact H1 | exact H2].
Qed.

Lemma update_raised p (s s' : State W) e :
  update_trade_threshold config (Some p) s = Raised e s' ->
  e = ZeroDivisionError
  /\ exists evs, s' = logged evs s /\ Forall (fun e => is_info e = true) evs.
Proof.
  unfold update_trade_threshold, bind, get_current_coin, query_pairs, commit_pairs.
  intros E.
  destruct (recalibrate config (current_coin s) p (pair_table s) s)
    as [ps' s1| |] eqn:E1; try discriminate.
  injection E as -> ->.
  destruct (recalibrate_raises config _ _ _ _ _ _ E1) as (-> & _).
  split; [reflexivity|].
  destruct (recalibrate_frame config (current_coin s) p (pair_table s) s)
    as (_ & evs & Hf & Hevs).
  rewrite E1 in Hf. eauto.
Qed.

Lemma transaction_unfold fuel pr (s : State W) :
  transaction_through_bridge config fuel pr s
  = match sell_alt (symbol (from_coin pr)) (BRIDGE config) (exchange s) with
    | (None, w') =>
        Returned tt
          (mkState w' (current_coin s) (pair_table s) (best_ratios s)
             (EvInfo "Couldn't sell, going back to scouting mode..."
              :: EvSell (symbol (from_coin pr)) (BRIDGE config)
              :: EvTransaction pr :: trace s))
    | (Some _, w1) =>
        match buy_until_success config fuel (symbol (to_coin pr))
                (mkState w1 (current_coin s) (pair_table s) (best_ratios s)
                   (EvSell (symbol (from_coin pr)) (BRIDGE config)
                    :: EvTransaction pr :: trace s)) with
        | Returned r s2 =>
            update_trade_threshold config (Some (price r))
              (mkState (exchange s2) (Some (symbol (to_coin pr)))
                 (pair_table s2) (best_ratios s2)
                 (EvSetCurrent (symbol (to_coin pr)) :: trace s2))
        | Raised e s2 => Raised e s2
        | OutOfFuel s2 => OutOfFuel s2
        end
    end.
Proof.
  unfold transaction_through_bridge, bind, emit, call_sell_alt, set_current_coin.
  cbn [exchange current_coin pair_table best_ratios trace].
  destruct (sell_alt (symbol (from_coin pr)) (BRIDGE config) (exchange s))
    as [[r0|] w1]; reflexivity.
Qed.

Lemma transaction_final fuel pr (s : State W) :
  let o := transaction_through_bridge config fuel pr s in
  let dest := symbol (to_coin pr) in
  best_ratios (final_state o) = best_ratios s
  /\ sells (trace (final_state o))
     = (symbol (from_coin pr), BRIDGE config) :: sells (trace s)
  /\ ((current_coin (final_state o) = current_coin s
       /\ pair_table (final_state o) = pair_table s)
      \/ (current_coin (final_state o) = Some dest
          /\ (pair_table (final_state o) = pair_table s
              \/ exists w p,
                   pair_table (final_state o)
                   = map (recalibrated config w (Some dest) p) (pair_table s))))
  /\ (forall e s', o = Raised e s' -> e = ZeroDivisionError).
Proof.
  cbn zeta. rewrite transaction_unfold.
  destruct (sell_alt (symbol (from_coin pr)) (BRIDGE config) (exchange s))
    as [[r0|] w1].
  2:{ cbn. split; [reflexivity|]. split; [reflexivity|].
      split; [left; split; reflexivity | discriminate]. }
  match goal with
  | |- context [buy_until_success _ _ ?c ?s1] =>
      pose proof (buy_until_success_frame config fuel c s1) as (Hc & Hp & Hl & _);
      pose proof (buy_until_success_quiet fuel c s1) as (Hnr & Hs);
      destruct (buy_until_success config fuel c s1) as [r s2|e s2|s2]
  end; cbn in Hc, Hp, Hl, Hs.
  - match goal with
    | |- context [update_trade_threshold _ ?q ?s3] =>
        destruct (update_trade_threshold config q s3) as [[] s4|e s4|s4] eqn:E
    end.
    + destruct (update_returned config _ _ _ E) as (evs & -> & Hevs & _). cbn.
      split; [exact Hl|]. split.
      { rewrite (sells_info evs) by assumption. exact Hs. }
      split; [|discriminate]. right. split; [reflexivity|]. right.
      rewrite Hp. eauto.
    + destruct (update_raised _ _ _ _ E) as (-> & evs & -> & Hevs). cbn.
      split; [exact Hl|]. split.
      { rewrite (sells_info evs) by assumption. exact Hs. }
      split; [|now intros ? ? [= <- _]]. right. split; [reflexivity|]. now left.
    + exfalso.
      match type of E with
      | update_trade_threshold _ ?q ?s3 = _ =>
          destruct (update_trade_threshold_frame config q s3) as (_ & _ & _ & _ & Ht)
      end.
      rewrite E in Ht. exact Ht.
  - now destruct (Hnr e s2).
  - cbn. split; [exact Hl|]. split; [exact Hs|].
    split; [|discriminate]. left. auto.
Qed.

(** X7: whatever its outcome, the executor places exactly one sell order,
    for the source of the pair against the bridge, and never touches the
    ledger.  In the state it ends in, either the held coin and the table are
    what they were, or the held coin is the destination of the pair and the
    table is unchanged or recalibrated for it.  The only exception it can
    raise is [ZeroDivisionError]. *)
Theorem transaction_invariants fuel pr (s : State W) :
  let o := transaction_through_bridge config fuel pr s in
  let dest := symbol (to_coin pr) in
  best_ratios (final_state o) = best_ratios s
  /\ sells (trace (final_state o))
     = (symbol (from_coin pr), BRIDGE config) :: sells (trace s)
  /\ ((current_coin (final_state o) = current_coin s
       /\ pair_table (final_state o) = pair_table s)
      \/ (current_coin (final_state o) = Some dest
          /\ (pair_table (final_state o) = pair_table s
              \/ exists w p,
                   pair_table (final_state o)
                   = map (recalibrated config w (Some dest) p) (pair_table s))))
  /\ (forall e s', o = Raised e s' -> e = ZeroDivisionError).
Proof. exact (transaction_final fuel pr s). Qed.

End TransitionTheorems.

(** ** scout *)

Section ScoutInvariants.

Context {W : Type} {manager : BinanceAPIManager W} (config : Config).

(** In a cycle that jumps, the state the cycle ends in differs from the one
    the executor ends in by the ledger and the report line only. *)
Lemma scout_jump_final fuel (s : State W) (rd : list (Pair * Q)) (best : Pair * Q) evs :
  let t := transaction_through_bridge config fuel best.1 (logged evs s) in
  let o := match t with
           | Returned _ s2 =>
               Returned tt
                 (mkState (exchange s2) (current_coin s2) (pair_table s2)
                    (record_best_ratios rd ∅)
                    (EvBest (current_best rd "" None).1
                            (current_best rd "" None).2 :: trace s2))
           | Raised e s2 => Raised e s2
           | OutOfFuel s2 => OutOfFuel s2
           end in
  current_coin (final_state o) = current_coin (final_state t)
  /\ pair_table (final_state o) = pair_table (final_state t)
  /\ sells (trace (final_state o)) = sells (trace (final_state t))
  /\ transactions (trace (final_state o)) = transactions (trace (final_state t))
  /\ (forall e s', o = Raised e s' -> t = Raised e s').
Proof.
  cbn zeta.
  destruct (transaction_through_bridge config fuel best.1 (logged evs s))
    as [[] s2|e s2|s2]; cbn; repeat split; auto; discriminate.
Qed.

(** X8: whatever its outcome, a cycle keeps a held coin held, keeps the
    rows of the pair table (endpoints unchanged, no ratio unset), rewrites
    only ratios of pairs into the coin that is held when it ends, and
    places at most one sell order, which sells the coin that was held. *)
Theorem scout_invariants fuel (s : State W) :
  let o := scout config fuel s in
  let f := final_state o in
  (is_Some (current_coin s) -> is_Some (current_coin f))
  /\ same_pairs (pair_table s) (pair_table f)
  /\ (forall i p p',
        pair_table s !! i = Some p -> pair_table f !! i = Some p' -> p' <> p ->
        current_coin f = Some (symbol (to_coin p)))
  /\ (sells (trace f) = sells (trace s)
      \/ exists cur, current_coin s = Some cur
           /\ sells (trace f) = (cur, BRIDGE config) :: sells (trace s)).
Proof.
  cbn zeta. destruct (scout_cases config fuel s) as [A|B].
  - destruct A as (_ & _ & evs & ledger & -> & Hq & _). cbn.
    split; [auto|]. split; [apply same_pairs_refl|]. split.
    + intros i p p' H1 H2 Hne. rewrite H1 in H2. now injection H2 as <-.
    + left. now apply sells_quiet.
  - destruct B as (cur & cp & rd & s1 & best & evs & Hcur & Hcp & Hrd & Hmax
                   & Hevs & ->).
    destruct (scout_jump_final fuel s rd best evs) as (-> & -> & -> & _).
    destruct (transaction_final config fuel best.1 (logged evs s))
      as (_ & Hsell & Hcase & _).
    assert (best ∈ rd) as Hin.
    { destruct (py_max_filtered_spec rd best Hmax) as (r1 & r2 & -> & _).
      apply elem_of_app. right. left. }
    destruct (evaluated_pair_facts config s s1 cur cp rd best Hrd Hin)
      as (_ & Hfrom & _).
    split; [|split; [|split]].
    + intros _. destruct Hcase as [[-> _]|[-> _]]; [cbn; rewrite Hcur|]; eauto.
    + destruct Hcase as [[_ ->]|[_ [->|(w & p & ->)]]];
        try apply same_pairs_refl. apply same_pairs_recalibrated.
    + intros i p p' H1 H2 Hne.
      destruct Hcase as [[_ Ht]|[Hc [Ht|(w & q & Ht)]]]; rewrite Ht in H2;
        cbn [logged pair_table] in H2.
      * rewrite H1 in H2. now injection H2 as <-.
      * rewrite H1 in H2. now injection H2 as <-.
      * rewrite list_lookup_fmap, H1 in H2. injection H2 as <-.
        rewrite Hc. f_equal. unfold recalibrated, to_coin_is in Hne.
        destruct (String.eqb (symbol (to_coin p)) (symbol (to_coin best.1)))
          eqn:Heq; [|now destruct Hne].
        apply String.eqb_eq in Heq. now rewrite Heq.
    + right. exists cur. split; [exact Hcur|].
      rewrite Hsell, Hfrom. cbn [logged trace]. now rewrite sells_info.
Qed.

(** X9: a cycle enters the executor at most once, and only with a row of
    the pair table that starts at the held coin, leads to an enabled coin
    with a bridge price and has a ratio; the sell order of the cycle is for
    the source of that row. *)
Theorem jump_target fuel (s : State W) :
  let f := final_state (scout config fuel s) in
  (transactions (trace f) = transactions (trace s)
   /\ sells (trace f) = sells (trace s))
  \/ exists bp,
       transactions (trace f) = bp :: transactions (trace s)
       /\ sells (trace f) = (symbol (from_coin bp), BRIDGE config) :: sells (trace s)
       /\ bp ∈ pair_table s
       /\ current_coin s = Some (symbol (from_coin bp))
       /\ enabled (to_coin bp) = true
       /\ is_Some (get_ticker_price (symbol (to_coin bp) +:+ BRIDGE config)
                                    (exchange s))
       /\ is_Some (ratio bp).
Proof.
  cbn zeta. destruct (scout_cases config fuel s) as [A|B].
  - left. destruct A as (_ & _ & evs & ledger & -> & Hq & _). cbn.
    split; [now apply transactions_quiet | now apply sells_quiet].
  - right.
    destruct B as (cur & cp & rd & s1 & best & evs & Hcur & Hcp & Hrd & Hmax
                   & Hevs & ->).
    destruct (scout_jump_final fuel s rd best evs) as (_ & _ & -> & -> & _).
    destruct (transaction_final config fuel best.1 (logged evs s))
      as (_ & Hsell & _).
    assert (best ∈ rd) as Hin.
    { destruct (py_max_filtered_spec rd best Hmax) as (r1 & r2 & -> & _).
      apply elem_of_app. right. left. }
    destruct (evaluated_pair_facts config s s1 cur cp rd best Hrd Hin)
      as (Htab & Hfrom & Hen & Hp & Hr).
    exists best.1. rewrite transaction_enters, Hsell. cbn [logged trace].
    rewrite transactions_info, sells_info by assumption.
    rewrite Hfrom. auto 10.
Qed.

(** X10: the only exceptions a cycle raises are [TypeError] and
    [ZeroDivisionError], and a cycle that does not enter the executor
    always ends: the buy retry loop is the only place where a cycle can
    hang. *)
Theorem scout_failures fuel (s : State W) :
  let o := scout config fuel s in
  (forall e s', o = Raised e s' -> e = TypeError \/ e = ZeroDivisionError)
  /\ (transactions (trace (final_state o)) = transactions (trace s) ->
      terminates o).
Proof.
  cbn zeta. destruct (scout_cases config fuel s) as [A|B].
  - destruct A as (Ht & Hr & _). auto.
  - destruct B as (cur & cp & rd & s1 & best & evs & Hcur & Hcp & Hrd & Hmax
                   & Hevs & ->).
    destruct (scout_jump_final fuel s rd best evs) as (_ & _ & _ & Htr & Hraise).
    split.
    + intros e s' E. right.
      destruct (transaction_final config fuel best.1 (logged evs s))
        as (_ & _ & _ & Hz).
      exact (Hz _ _ (Hraise _ _ E)).
    + rewrite Htr, transaction_enters. cbn [logged trace].
      rewrite transactions_info by assumption. intros H.
      destruct (cons_neq _ _ H).
Qed.


(** X12: when a cycle that evaluated at least one pair returns, with or
    without a jump, the ledger has an entry for every evaluated pair: it is
    not empty. *)
Theorem ledger_nonempty_after_evaluation fuel (s s1 s' : State W) cur cp rd :
  current_coin s = Some cur ->
  get_ticker_price (cur +:+ BRIDGE config) (exchange s) = Some cp ->
  (ps <- get_pairs_from cur ;; scout_pairs config cp ps) s = Returned rd s1 ->
  rd <> [] ->
  scout config fuel s = Returned tt s' ->
  best_ratios s' <> ∅
  /\ forall kv, kv ∈ rd -> is_Some (best_ratios s' !! pair_tuple kv.1).
Proof.
  intros Hcur Hcp Hrd Hne Hret.
  assert (forall kv, kv ∈ rd -> is_Some (best_ratios s' !! pair_tuple kv.1)) as Hcov.
  { destruct (py_max (ratio_dict_filtered rd)) as [best|] eqn:Hmax.
    - destruct (scout_jump config fuel s s1 cur cp rd best Hcur Hcp Hrd Hmax)
        as (evs & _ & E).
      rewrite E in Hret.
      destruct (transaction_through_bridge config fuel best.1 (logged evs s))
        as [[] s2| |]; try discriminate.
      injection Hret as <-. intros kv Hin. now apply record_best_ratios_covers.
    - destruct (scout_no_jump config fuel s s1 cur cp rd Hcur Hcp Hrd Hmax)
        as (s2 & E & _ & _ & _ & Hl).
      rewrite E in Hret. injection Hret as <-. rewrite Hl.
      intros kv Hin. now apply record_best_ratios_covers. }
  split; [|exact Hcov].
  destruct rd as [|kv rest]; [now destruct Hne|].
  intros Hempty. destruct (Hcov kv) as [v Hv]; [left|].
  rewrite Hempty, lookup_empty in Hv. discriminate.
Qed.

End ScoutInvariants.

(** ** The report line of a cycle *)






Section Report.

Context {W : Type} {manager : BinanceAPIManager W} (config : Config).



End Report.

(** ** Calibration followed by a cycle *)

Section CalibratedCycle.

Context {W : Type} {manager : BinanceAPIManager W} (config : Config).

Lemma scout_pairs_type_error cp ps : forall (s s' : State W),
  scout_pairs config cp ps s = Raised TypeError s' ->
  exists pr, pr ∈ ps /\ viable config (exchange s) pr = true /\ ratio pr = None.
Proof.
  induction ps as [|pr rest IH]; intros s s' E; [discriminate|].
  cbn [scout_pairs] in E.
  assert (forall (s0 : State W),
            exchange s0 = exchange s ->
            scout_pairs config cp rest s0 = Raised TypeError s' ->
            exists pr0, pr0 ∈ pr :: rest
              /\ viable config (exchange s) pr0 = true /\ ratio pr0 = None)
    as Hrest.
  { intros s0 He E0. destruct (IH _ _ E0) as (pr0 & Hin & Hv & Hr).
    rewrite He in Hv. exists pr0. split; [now right | auto]. }
  destruct (enabled (to_coin pr)) eqn:Hen; cbn [negb] in E;
    [|now apply (Hrest s)].
  unfold bind at 1, ticker in E.
  destruct (get_ticker_price (coin_add (to_coin pr) (BRIDGE config)) (exchange s))
    as [op|] eqn:Hop.
  - unfold bind at 1, py_div in E.
    destruct (Qeq_bool op 0); [discriminate|].
    unfold bind at 1 2 3, fee, sub_ratio in E.
    destruct (ratio pr) eqn:Hr.
    + unfold bind, ret in E.
      destruct (scout_pairs config cp rest s) as [l s1| |] eqn:E1;
        try discriminate.
      injection E as -> ->. now apply (Hrest s).
    + exists pr. split; [left|]. split; [|exact Hr].
      unfold viable. now rewrite Hen, Hop.
  - unfold bind, logger_info, emit in E.
    eapply Hrest; [|exact E]. reflexivity.
Qed.

(** X14: calibration protects the next cycle.  If
    [initialize_trade_thresholds] returned, the held coin is enabled in
    every pair that starts at it, and the exchange has not changed, then
    the cycle that follows does not raise [TypeError]. *)
Theorem calibrated_cycle_has_no_type_error fuel (s s1 : State W) cur :
  initialize_trade_thresholds config s = Returned tt s1 ->
  current_coin s = Some cur ->
  (forall pr, pr ∈ pair_table s -> symbol (from_coin pr) = cur ->
     enabled (from_coin pr) = true) ->
  forall s', scout config fuel s1 <> Raised TypeError s'.
Proof.
  intros Hinit Hcur Hen s' Hraise.
  destruct (initialize_returned config s s1 Hinit) as (evs & -> & _ & _).
  remember (mkState (exchange s) (current_coin s)
              (map (initialized config (exchange s)) (pair_table s))
              (best_ratios s) (evs ++ trace s)) as st eqn:Hst.
  assert (exchange st = exchange s) as Hex by (subst st; reflexivity).
  assert (current_coin st = Some cur) as Hcst by (subst st; exact Hcur).
  assert (pair_table st = map (initialized config (exchange s)) (pair_table s))
    as Htab by (subst st; reflexivity).
  clear Hst.
  destruct (get_ticker_price (cur +:+ BRIDGE config) (exchange s)) as [cp|] eqn:Hcp.
  2:{ unfold scout, bind, get_current_coin, ticker in Hraise.
      rewrite Hcst, Hex, Hcp in Hraise. discriminate. }
  rewrite <- Hex in Hcp.
  destruct ((ps <- get_pairs_from cur ;; scout_pairs config cp ps) st)
    as [rd s2|e s2|s2] eqn:Hrd.
  - destruct (py_max (ratio_dict_filtered rd)) as [best|] eqn:Hmax.
    + destruct (scout_jump config fuel st s2 cur cp rd best Hcst Hcp Hrd Hmax)
        as (evs' & _ & E).
      rewrite E in Hraise.
      destruct (transaction_final config fuel best.1 (logged evs' st))
        as (_ & _ & _ & Hz).
      destruct (transaction_through_bridge config fuel best.1 (logged evs' st))
        as [[] s3|e s3|s3]; try discriminate.
      injection Hraise as -> _. now specialize (Hz _ _ eq_refl).
    + destruct (scout_no_jump config fuel st s2 cur cp rd Hcst Hcp Hrd Hmax)
        as (s3 & E & _). rewrite E in Hraise. discriminate.
  - assert (scout config fuel st = Raised e s2) as E.
    { unfold bind, get_pairs_from in Hrd.
      unfold scout, bind, get_current_coin, ticker, get_pairs_from.
      rewrite Hcst, Hcp. now rewrite Hrd. }
    rewrite E in Hraise. injection Hraise as -> _.
    unfold bind, get_pairs_from in Hrd.
    destruct (scout_pairs_type_error _ _ _ _ Hrd) as (pr & Hin & Hv & Hr).
    apply list_elem_of_filter in Hin as [Hfrom Hin].
    rewrite Htab in Hin. rewrite Hex in Hv, Hcp.
    apply list_elem_of_fmap in Hin as (p0 & -> & Hin0).
    assert (symbol (from_coin (initialized config (exchange s) p0)) = cur) as Hsym.
    { apply String.eqb_eq.
      now destruct (String.eqb (symbol (from_coin (initialized config (exchange s) p0))) cur). }
    clear Hfrom.
    unfold viable in Hv. apply andb_prop in Hv as [Hto Hp].
    apply bool_decide_eq_true in Hp as [op Hop].
    unfold initialized, coin_add in *.
    destruct (ratio p0) eqn:Hr0; [rewrite Hr0 in Hr; discriminate|].
    specialize (Hen p0 Hin0).
    destruct (enabled (from_coin p0)) eqn:Hf0; cbn [negb orb] in *;
      [|cbn in Hsym; specialize (Hen Hsym); discriminate].
    destruct (enabled (to_coin p0)) eqn:Ht0; cbn [negb orb] in *;
      [|rewrite Ht0 in Hto; discriminate].
    destruct (get_ticker_price (symbol (from_coin p0) +:+ BRIDGE config) (exchange s))
      as [fp|] eqn:Hfp.
    + destruct (get_ticker_price (symbol (to_coin p0) +:+ BRIDGE config) (exchange s))
        as [tp|] eqn:Htp; [discriminate Hr|].
      cbn in Hop. rewrite Htp in Hop. discriminate.
    + cbn in Hsym. rewrite Hsym, Hcp in Hfp. discriminate.
  - unfold bind, get_pairs_from in Hrd.
    match type of Hrd with
    | scout_pairs _ _ ?l ?st0 = _ =>
        destruct (scout_pairs_frame config cp l st0) as (Ht & _)
    end.
    rewrite Hrd in Ht. exact Ht.
Qed.

End CalibratedCycle.

(** ** initialize_current_coin *)

Section BootstrapTheorems.

Context {W : Type} {manager : BinanceAPIManager W} (config : Config).

Lemma bootstrap_cases rnd (s : State W) :
  let o := initialize_current_coin config rnd s in
  (exists c, current_coin s = Some c /\ o = Returned tt s)
  \/ (current_coin s = None /\ CURRENT_COIN_SYMBOL config = ""
      /\ SUPPORTED_COIN_LIST config = [] /\ o = Raised IndexError s)
  \/ (exists c,
        current_coin s = None /\ CURRENT_COIN_SYMBOL config = ""
        /\ c ∈ SUPPORTED_COIN_LIST config
        /\ o = Returned tt
                 (mkState (buy_alt c (BRIDGE config) (exchange s)).2 (Some c)
                    (pair_table s) (best_ratios s)
                    ([EvInfo "Ready to start trading";
                      EvBuy c (BRIDGE config);
                      EvInfo ("Purchasing " +:+ c +:+ " to begin trading");
                      EvSetCurrent c;
                      EvInfo ("Setting initial coin to " +:+ c)] ++ trace s)))
  \/ (current_coin s = None /\ CURRENT_COIN_SYMBOL config <> ""
      /\ CURRENT_COIN_SYMBOL config ∈ SUPPORTED_COIN_LIST config
      /\ o = Returned tt
               (mkState (exchange s) (Some (CURRENT_COIN_SYMBOL config))
                  (pair_table s) (best_ratios s)
                  ([EvSetCurrent (CURRENT_COIN_SYMBOL config);
                    EvInfo ("Setting initial coin to "
                            +:+ CURRENT_COIN_SYMBOL config)] ++ trace s)))
  \/ (current_coin s = None /\ CURRENT_COIN_SYMBOL config <> ""
      /\ (CURRENT_COIN_SYMBOL config ∉ SUPPORTED_COIN_LIST config)
      /\ o = Raised (SystemExit exit_message)
               (logged [EvInfo ("Setting initial coin to "
                                +:+ CURRENT_COIN_SYMBOL config)] s)).
Proof.
  cbn zeta.
  unfold initialize_current_coin, bind, get_current_coin, random_choice,
    logger_info, emit, set_current_coin, call_buy_alt, ret, raise.
  destruct (current_coin s) as [c|] eqn:Hc; [left; eauto|]. right.
  destruct (String.eqb (CURRENT_COIN_SYMBOL config) "") eqn:Hsym.
  - apply String.eqb_eq in Hsym.
    destruct (SUPPORTED_COIN_LIST config
                !! (rnd mod length (SUPPORTED_COIN_LIST config))%nat)
      as [c|] eqn:Hl.
    + right. left. exists c.
      assert (c ∈ SUPPORTED_COIN_LIST config) as Hin
        by (eapply list_elem_of_lookup_2; exact Hl).
      pose proof (proj2 (supported_elem_of config c) Hin) as Hsup.
      repeat split; auto. rewrite Hsup. cbn.
      now destruct (buy_alt c (BRIDGE config) (exchange s)).
    + left. repeat split; auto.
      destruct (SUPPORTED_COIN_LIST config) as [|x l] eqn:E; [reflexivity|].
      exfalso. apply lookup_ge_None in Hl.
      pose proof (Nat.mod_upper_bound rnd (length (x :: l))) as Hb.
      cbn [length] in *. lia.
  - apply String.eqb_neq in Hsym. right. right.
    destruct (supported config (CURRENT_COIN_SYMBOL config)) eqn:Hsup.
    + left. apply supported_elem_of in Hsup. repeat split; auto.
    + right. repeat split; auto.
      intros Hin. apply supported_elem_of in Hin. congruence.
Qed.

(** X15: when the bootstrap returns a coin is held: the one that was held
    before, with the state untouched, or a coin of the supported list; and
    bootstrapping again, with any draw, does nothing. *)
Theorem bootstrap_postcondition rnd (s s1 : State W) :
  initialize_current_coin config rnd s = Returned tt s1 ->
  (exists c, current_coin s1 = Some c
     /\ ((current_coin s = Some c /\ s1 = s)
         \/ (current_coin s = None /\ c ∈ SUPPORTED_COIN_LIST config)))
  /\ forall rnd', initialize_current_coin config rnd' s1 = Returned tt s1.
Proof.
  intros E.
  assert (exists c, current_coin s1 = Some c
            /\ ((current_coin s = Some c /\ s1 = s)
                \/ (current_coin s = None /\ c ∈ SUPPORTED_COIN_LIST config)))
    as (c & Hc & Hor).
  { destruct (bootstrap_cases rnd s)
      as [(c & Hc & E')|[(_ & _ & _ & E')|[(c & Hn & _ & Hin & E')
          |[(Hn & _ & Hin & E')|(_ & _ & _ & E')]]]];
      cbn zeta in E'; rewrite E' in E; try discriminate;
      injection E as <-; eexists; (split; [try exact Hc; reflexivity|]); auto. }
  split; [eauto|].
  intros rnd'. unfold initialize_current_coin, bind, get_current_coin.
  now rewrite Hc.
Qed.

(** X16: with no held coin, no configured symbol and an empty supported
    list, the bootstrap raises [IndexError] before it logs, records or
    buys anything. *)
Theorem bootstrap_empty_list rnd (s : State W) :
  current_coin s = None ->
  CURRENT_COIN_SYMBOL config = "" ->
  SUPPORTED_COIN_LIST config = [] ->
  initialize_current_coin config rnd s = Raised IndexError s.
Proof.
  intros Hn Hsym Hl.
  unfold initialize_current_coin, bind, get_current_coin, random_choice.
  rewrite Hn, Hsym, Hl. reflexivity.
Qed.

(** X17: whatever its outcome, the bootstrap never sells, never touches the
    pair table or the ledger, and places at most one buy order, which it
    places only when no symbol is configured; the only exceptions it raises
    are [IndexError] and [SystemExit]. *)
Theorem bootstrap_frame rnd (s : State W) :
  let o := initialize_current_coin config rnd s in
  let f := final_state o in
  terminates o
  /\ pair_table f = pair_table s
  /\ best_ratios f = best_ratios s
  /\ sells (trace f) = sells (trace s)
  /\ (buys (trace f) = buys (trace s)
      \/ exists c, CURRENT_COIN_SYMBOL config = ""
           /\ current_coin f = Some c
           /\ buys (trace f) = (c, BRIDGE config) :: buys (trace s))
  /\ (forall e s', o = Raised e s' ->
        e = IndexError \/ e = SystemExit exit_message).
Proof.
  cbn zeta.
  destruct (bootstrap_cases rnd s)
    as [(c & Hc & E)|[(_ & _ & _ & E)|[(c & Hn & Hsym & Hin & E)
        |[(Hn & _ & Hin & E)|(_ & _ & _ & E)]]]];
    cbn zeta in E; rewrite E; cbn;
    (split; [exact I|]); (do 3 (split; [reflexivity|])).
  - split; [now left | discriminate].
  - split; [now left | intros ? ? [= <- _]; now left].
  - split; [right; eauto | discriminate].
  - split; [now left | discriminate].
  - split; [now left | intros ? ? [= <- _]; now right].
Qed.

End BootstrapTheorems.

(** ** Instances of the further properties *)

Lemma calibration_effect_witness :
  exists s',
    initialize_trade_thresholds Demo.config
      (Demo.start Demo.calm (Some "A") Demo.fresh) = Returned tt s'
    /\ length (pair_table s') = 4%nat
    /\ pair_table s' !! 0%nat = Some (Demo.ab (Some (100 / 80)))
    /\ pair_table s' !! 2%nat = Some (mkPair Demo.A Demo.D None).
Proof.
  eexists. split; [vm_compute; reflexivity|].
  destruct (calibration_effect (manager := Demo.manager) Demo.config
              (Demo.start Demo.calm (Some "A") Demo.fresh) _
              ltac:(vm_compute; reflexivity)) as (Hlen & _).
  split; [exact Hlen|]. split; reflexivity.
Defined.

Lemma calibration_idempotent_witness :
  exists s2,
    initialize_trade_thresholds Demo.config
      (final_state (initialize_trade_thresholds Demo.config
                      (Demo.start Demo.calm (Some "A") Demo.fresh)))
      = Returned tt s2
    /\ pair_table s2
       = pair_table (final_state (initialize_trade_thresholds Demo.config
                                    (Demo.start Demo.calm (Some "A") Demo.fresh))).
Proof.
  apply (calibration_idempotent (manager := Demo.manager) Demo.config
           (Demo.start Demo.calm (Some "A") Demo.fresh)).
  vm_compute. reflexivity.
Defined.

Lemma recalibration_idempotent_witness :
  exists s2,
    update_trade_threshold Demo.config (Some 80)
      (final_state (update_trade_threshold Demo.config (Some 80)
                      (Demo.start Demo.calm (Some "B") Demo.table)))
      = Returned tt s2
    /\ pair_table s2
       = pair_table (final_state (update_trade_threshold Demo.config (Some 80)
                                    (Demo.start Demo.calm (Some "B") Demo.table))).
Proof.
  apply (recalibration_idempotent (manager := Demo.manager) Demo.config 80
           (Demo.start Demo.calm (Some "B") Demo.table)).
  vm_compute. reflexivity.
Defined.


Lemma ledger_nonempty_after_evaluation_witness :
  best_ratios (final_state (scout Demo.config 1
                              (Demo.start Demo.liquid (Some "A") Demo.table)))
  <> ∅.
Proof.
  refine (proj1 (ledger_nonempty_after_evaluation (manager := Demo.manager) Demo.config 1
                   (Demo.start Demo.liquid (Some "A") Demo.table) _ _ "A" 100 _
                   eq_refl eq_refl ltac:(vm_compute; reflexivity) _ _)).
  - discriminate.
  - vm_compute. reflexivity.
Defined.


Lemma calibrated_cycle_has_no_type_error_witness :
  scout Demo.config 1
    (final_state (initialize_trade_thresholds Demo.config
                    (Demo.start Demo.liquid (Some "A") Demo.fresh)))
  <> Raised TypeError (Demo.start Demo.liquid (Some "A") Demo.fresh).
Proof.
  apply (calibrated_cycle_has_no_type_error (manager := Demo.manager) Demo.config 1
           (Demo.start Demo.liquid (Some "A") Demo.fresh) _ "A").
  - vm_compute. reflexivity.
  - reflexivity.
  - intros pr Hin _.
    repeat (apply elem_of_cons in Hin as [->|Hin]; [reflexivity|]).
    inversion Hin.
Defined.

Lemma bootstrap_postcondition_witness :
  initialize_current_coin Demo.config 3
    (final_state (initialize_current_coin Demo.config 7
                    (Demo.start Demo.calm None Demo.table)))
  = Returned tt
      (final_state (initialize_current_coin Demo.config 7
                      (Demo.start Demo.calm None Demo.table))).
Proof.
  apply (proj2 (bootstrap_postcondition (manager := Demo.manager) Demo.config 7
                  (Demo.start Demo.calm None Demo.table) _
                  ltac:(vm_compute; reflexivity))).
Defined.

Lemma bootstrap_empty_list_witness :
  initialize_current_coin Demo.unlisted 7 (Demo.start Demo.calm None Demo.table)
  = Raised IndexError (Demo.start Demo.calm None Demo.table).
Proof.
  apply (bootstrap_empty_list (manager := Demo.manager) Demo.unlisted 7
           (Demo.start Demo.calm None Demo.table)); reflexivity.
Defined.
